(** * Verification of the Indian stock screening strategy (script.py)

    A shallow embedding of [IndianStockStrategy]: the three technical
    criteria, the position sizer and the per-symbol screener, followed by
    the properties stated about them.

    Numbers.  The script computes with IEEE doubles.  The embedding comes
    in two layers.

    - The exact layer ([Pandas], [IndianStockStrategy]) holds every price
      and amount as a rational ([Q]): the script as it would run on numbers
      of unbounded precision.  A quotient is then infinite or undefined
      only when the divisor is zero, and the [int()] around it raises
      [OverflowError], or [ValueError] when the dividend is zero too.  NaN
      cells in a frame are outside this layer; the NaN that pandas returns
      for the max or min of an empty column is [None].  This layer carries
      the properties of control flow, of the order of prices and of the
      frames.

    - The double layer ([Binary64]) runs the same methods on Rocq's
      primitive binary64 floats, with numpy's rules: a division never
      raises, [int()] raises [OverflowError] on an infinity and
      [ValueError] on a NaN, comparisons with a NaN are false, and the
      reductions of a column skip NaN cells.  This layer carries the
      properties that depend on rounding: what the sizer returns, what it
      raises, and the capital limits of a result.

    Data frames.  A yfinance history is a list of daily bars indexed by a
    day number (days since 1970-01-01); its [Volume] column is [int64].
    [Frames] models what pandas does with the index, in whatever order the
    rows come: [DataFrame.last] searches the index by bisection, and
    [resample] sorts the rows by date before it bins them. *)

From Stdlib Require Import QArith Qround Qminmax ZArith List String Bool Lia Lqa.
From Stdlib Require Import Sorted Permutation Floats.
Import ListNotations.
Open Scope Q_scope.

(** ** Python values and control *)

Module Py.

(** The exceptions the script can meet: [int()] of an infinite quotient
    raises [OverflowError], [int()] of a NaN raises [ValueError], and
    [iloc[-1]] on an empty column raises [IndexError]. *)
Inductive exn : Type :=
| OverflowError
| ValueError
| IndexError.

(** The outcome of evaluating an expression that may raise. *)
Inductive Outcome (A : Type) : Type :=
| Ret (a : A)
| Raise (e : exn).
Arguments Ret {A} a.
Arguments Raise {A} e.

Definition bind {A B : Type} (m : Outcome A) (k : A -> Outcome B) : Outcome B :=
  match m with
  | Ret a => k a
  | Raise e => Raise e
  end.

(** [x < y] on numbers. *)
Definition Qltb (x y : Q) : bool := negb (Qle_bool y x).

(** [x / y], for a quotient that goes on to [int()]: with a zero divisor
    it is infinite, or NaN when the dividend is zero too, and the
    conversion raises. *)
Definition truediv (x y : Q) : Outcome Q :=
  if Qeq_bool y 0
  then Raise (if Qeq_bool x 0 then ValueError else OverflowError)
  else Ret (x / y).

(** [int(x)]: truncation toward zero. *)
Definition int (x : Q) : Z := Z.quot (Qnum x) (Zpos (Qden x)).

(** [seq[-1]]. *)
Fixpoint iloc_last {A : Type} (l : list A) : option A :=
  match l with
  | [] => None
  | [x] => Some x
  | _ :: rest => iloc_last rest
  end.

(** [d.get(key, default)] on a dict literal, kept as an association list. *)
Fixpoint dict_get {V : Type} (d : list (string * V)) (key : string) (default : V) : V :=
  match d with
  | [] => default
  | (k, v) :: rest => if String.eqb k key then v else dict_get rest key default
  end.

(** [s.endswith(suffix)]. *)
Definition endswith (s suffix : string) : bool :=
  let n := String.length s in
  let m := String.length suffix in
  if (m <=? n)%nat then String.eqb (substring (n - m) m s) suffix else false.

End Py.
Import Py.

Declare Scope outcome_scope.
Delimit Scope outcome_scope with outcome.
Notation "x <- m ;; k" := (Py.bind m (fun x => k))
  (at level 61, m at next level, right associativity) : outcome_scope.

(** ** Date-indexed frames

    What pandas does with the index of a frame, for any type of row: the
    calendar of [resample('W')], the binary search behind
    [DataFrame.last], the sort that [resample] starts with, and the sum of
    an [int64] column. *)

Module Frames.

(** Weekly bins of [resample('W')]: weeks run Monday to Sunday and are
    labelled by their Sunday.  Day 0 is Thursday 1 January 1970, so day 3
    is a Sunday. *)
Definition week_of (d : Z) : Z := ((d + 3) / 7)%Z.
Definition week_label (d : Z) : Z := (7 * week_of d + 3)%Z.

(** Arithmetic on [int64]: a sum that leaves the range wraps around. *)
Definition wrap_int64 (z : Z) : Z :=
  ((z + 9223372036854775808) mod 18446744073709551616 - 9223372036854775808)%Z.

Definition int64_sum (column : list Z) : Z := wrap_int64 (fold_left Z.add column 0%Z).

(** [index.searchsorted(key, side='right')]: numpy's binary search.  It
    halves the interval whatever the order of the index; [fuel] bounds the
    number of halvings. *)
Fixpoint bisect_right (fuel : nat) (at_ : nat -> Z) (key : Z) (lo hi : nat) : nat :=
  match fuel with
  | O => lo
  | S fuel' =>
      if (lo <? hi)%nat then
        let mid := (lo + (hi - lo) / 2)%nat in
        if (key <? at_ mid)%Z
        then bisect_right fuel' at_ key lo mid
        else bisect_right fuel' at_ key (mid + 1) hi
      else lo
  end.

Definition searchsorted_right (index : list Z) (key : Z) : nat :=
  bisect_right (List.length index) (fun i => nth i index 0%Z) key 0 (List.length index).

Section Rows.

Context {Row : Type}.
Variable date : Row -> Z.

(** [data.last(offset)] for an offset of whole days: the rows from the
    position that the search for the last index minus the offset gives;
    an empty frame is returned as it is. *)
Definition last_days (days : Z) (data : list Row) : list Row :=
  match iloc_last data with
  | None => data
  | Some b =>
      let start_date := (date b - days)%Z in
      let start := searchsorted_right (map date data) start_date in
      skipn start data
  end.

(** [resample] bins the rows by their index: a frame whose index is not
    increasing is first sorted by it, rows of one date keeping their
    order. *)
Fixpoint insert_by_date (b : Row) (sorted : list Row) : list Row :=
  match sorted with
  | [] => [b]
  | c :: rest =>
      if (date b <=? date c)%Z then b :: c :: rest
      else c :: insert_by_date b rest
  end.

Fixpoint sort_by_date (data : list Row) : list Row :=
  match data with
  | [] => []
  | b :: rest => insert_by_date b (sort_by_date rest)
  end.

(** The runs of neighbouring rows that fall in one calendar week. *)
Fixpoint group_weeks (data : list Row) : list (list Row) :=
  match data with
  | [] => []
  | b :: rest =>
      match group_weeks rest with
      | (b' :: g) :: gs =>
          if (week_of (date b) =? week_of (date b'))%Z
          then (b :: b' :: g) :: gs
          else [b] :: (b' :: g) :: gs
      | bins => [b] :: bins
      end
  end.

(** The rows of each weekly bin that has rows, in the order of the weeks.
    A week without rows gives a row of NaN, which the [dropna()] that
    follows removes. *)
Definition week_bins (data : list Row) : list (list Row) :=
  group_weeks (sort_by_date data).

(** The label of a bin: the Sunday that ends the week of its rows. *)
Definition bin_label (g : list Row) : Z :=
  match g with
  | first :: _ => week_label (date first)
  | [] => 0%Z
  end.

End Rows.

End Frames.
Import Frames.

(** ** Data frames of OHLCV bars *)

Module Pandas.

(** One row of a history: the index (a day number) and the columns the
    script reads. *)
Record PriceBar : Type := {
  Date : Z;
  Open : Q;
  High : Q;
  Low : Q;
  Close : Q;
  Volume : Z
}.

Definition DataFrame : Type := list PriceBar.


(** [series.max()] and [series.min()]; [None] is the NaN of an empty
    column. *)
Definition Series_max (s : list Q) : option Q :=
  match s with
  | [] => None
  | x :: xs => Some (fold_left Qmax xs x)
  end.

Definition Series_min (s : list Q) : option Q :=
  match s with
  | [] => None
  | x :: xs => Some (fold_left Qmin xs x)
  end.

(** [data.last('30D')]. *)
Definition last_30D (data : DataFrame) : DataFrame := Frames.last_days Date 30 data.

(** [.agg({'Open': 'first', 'High': 'max', 'Low': 'min', 'Close': 'last',
    'Volume': 'sum'})] on one bin; a bin without rows gives a NaN row.
    The volumes are summed in [int64]. *)
Definition agg_week (g : list PriceBar) : option PriceBar :=
  match g, iloc_last g, Series_max (map High g), Series_min (map Low g) with
  | first :: _, Some last, Some hi, Some lo =>
      Some {| Date := week_label (Date first);
              Open := Open first;
              High := hi;
              Low := lo;
              Close := Close last;
              Volume := int64_sum (map Volume g) |}
  | _, _, _, _ => None
  end.

(** [.dropna()]. *)
Fixpoint dropna (rows : list (option PriceBar)) : DataFrame :=
  match rows with
  | [] => []
  | Some r :: rest => r :: dropna rest
  | None :: rest => dropna rest
  end.

Definition resample_W (data : DataFrame) : DataFrame :=
  dropna (map agg_week (Frames.week_bins Date data)).

End Pandas.
Import Pandas.

(** ** The market data provider (yfinance)

    The three things the script asks of a [yf.Ticker]: the [marketCap]
    entry of [info], the price history for a period, and the index
    constituents.  [None] stands for a failed lookup: an exception raised
    inside the script's [try] block, or an attribute that is absent or
    [None]. *)

Record YFinance : Type := {
  info_marketCap : string -> option Q;
  history : string -> string -> option DataFrame;
  constituents : string -> option (list string)
}.

(** ** A run of the screener: the calls made, then what came of them

    [screen_stock] is written in a small monad that keeps, next to the
    outcome, the list of the methods called so far, in order; a raised
    exception ends the run and keeps the calls made before it. *)

Inductive Call : Type :=
| call_get_market_cap (symbol : string)
| call_get_stock_data (symbol : string)
| call_calculate_52_week_range
| call_check_first_half_criterion
| call_check_monthly_candle_criterion
| call_check_weekly_candle_criterion
| call_calculate_position_size.

Definition Run (A : Type) : Type := (list Call * Outcome A)%type.

Definition run_ret {A : Type} (a : A) : Run A := ([], Ret a).

Definition run_bind {A B : Type} (m : Run A) (k : A -> Run B) : Run B :=
  match m with
  | (log, Ret a) => let (log', o) := k a in (log ++ log', o)
  | (log, Raise e) => (log, Raise e)
  end.

(** A method call: logged, then its outcome. *)
Definition calling {A : Type} (c : Call) (o : Outcome A) : Run A := ([c], o).

(** An expression evaluated in place. *)
Definition eval {A : Type} (o : Outcome A) : Run A := ([], o).

Declare Scope run_scope.
Delimit Scope run_scope with run.
Notation "x <- m ;; k" := (run_bind m (fun x => k))
  (at level 61, m at next level, right associativity) : run_scope.
Notation "' pat <- m ;; k" := (run_bind m (fun x => match x with pat => k end))
  (at level 61, pat pattern, m at next level, right associativity) : run_scope.

(** ** class IndianStockStrategy *)

Module IndianStockStrategy.

Record t : Type := {
  portfolio_capital : Q;
  max_risk_per_trade : Q;
  max_position_size : Q;
  max_risk_amount : Q;
  max_position_amount : Q;
  indian_stocks : list string
}.

(** The dict a qualifying stock is reported as. *)
Record ScreeningResult : Type := {
  symbol : string;
  current_price : Q;
  entry_price : Q;
  stop_loss : Q;
  target_price : Q;
  quantity : Z;
  risk_amount : Q;
  profit_potential : Q;
  risk_reward_ratio : Q;
  market_cap : Q;
  week_52_high : Q;
  week_52_low : Q;
  position_value : Q;
  criterion_1 : bool;
  criterion_2 : bool;
  criterion_3 : bool
}.

(** *** The curated constituent lists of [_get_fallback_stocks] *)

Local Open Scope string_scope.

Definition NIFTY_50_stocks : list string :=
  [
    "RELIANCE.NS"; "TCS.NS"; "INFY.NS"; "HDFCBANK.NS"; "ICICIBANK.NS";
    "HINDUNILVR.NS"; "SBIN.NS"; "BHARTIARTL.NS"; "ITC.NS"; "KOTAKBANK.NS";
    "LT.NS"; "ASIANPAINT.NS"; "MARUTI.NS"; "HCLTECH.NS"; "WIPRO.NS";
    "TITAN.NS"; "ULTRACEMCO.NS"; "ONGC.NS"; "TATASTEEL.NS"; "ADANIPORTS.NS";
    "POWERGRID.NS"; "NESTLEIND.NS"; "BAJFINANCE.NS"; "BAJAJFINSV.NS"; "TECHM.NS";
    "SUNPHARMA.NS"; "DRREDDY.NS"; "CIPLA.NS"; "DIVISLAB.NS"; "COALINDIA.NS";
    "NTPC.NS"; "JSWSTEEL.NS"; "TATAMOTORS.NS"; "M&M.NS"; "GRASIM.NS";
    "BRITANNIA.NS"; "SHREECEM.NS"; "EICHERMOT.NS"; "UPL.NS"; "HINDALCO.NS";
    "BAJAJ-AUTO.NS"; "APOLLOHOSP.NS"; "HEROMOTOCO.NS"; "BPCL.NS"; "IOC.NS";
    "INDUSINDBK.NS"; "AXISBANK.NS"; "VEDL.NS"; "ADANITRANS.NS"; "TATACONSUM.NS"
  ].

Definition SENSEX_stocks : list string :=
  [
    "RELIANCE.NS"; "TCS.NS"; "INFY.NS"; "HDFCBANK.NS"; "ICICIBANK.NS";
    "HINDUNILVR.NS"; "SBIN.NS"; "BHARTIARTL.NS"; "ITC.NS"; "KOTAKBANK.NS";
    "LT.NS"; "ASIANPAINT.NS"; "MARUTI.NS"; "HCLTECH.NS"; "BAJFINANCE.NS";
    "TITAN.NS"; "ULTRACEMCO.NS"; "ONGC.NS"; "TATASTEEL.NS"; "POWERGRID.NS";
    "NESTLEIND.NS"; "BAJAJFINSV.NS"; "TECHM.NS"; "SUNPHARMA.NS"; "NTPC.NS";
    "JSWSTEEL.NS"; "TATAMOTORS.NS"; "M&M.NS"; "AXISBANK.NS"; "INDUSINDBK.NS"
  ].

Definition NIFTY_100_stocks : list string :=
  [
    "RELIANCE.NS"; "TCS.NS"; "INFY.NS"; "HDFCBANK.NS"; "ICICIBANK.NS";
    "HINDUNILVR.NS"; "SBIN.NS"; "BHARTIARTL.NS"; "ITC.NS"; "KOTAKBANK.NS";
    "LT.NS"; "ASIANPAINT.NS"; "MARUTI.NS"; "HCLTECH.NS"; "WIPRO.NS";
    "TITAN.NS"; "ULTRACEMCO.NS"; "ONGC.NS"; "TATASTEEL.NS"; "ADANIPORTS.NS";
    "POWERGRID.NS"; "NESTLEIND.NS"; "BAJFINANCE.NS"; "BAJAJFINSV.NS"; "TECHM.NS";
    "SUNPHARMA.NS"; "DRREDDY.NS"; "CIPLA.NS"; "DIVISLAB.NS"; "COALINDIA.NS";
    "NTPC.NS"; "JSWSTEEL.NS"; "TATAMOTORS.NS"; "M&M.NS"; "GRASIM.NS";
    "BRITANNIA.NS"; "SHREECEM.NS"; "EICHERMOT.NS"; "UPL.NS"; "HINDALCO.NS";
    "BAJAJ-AUTO.NS"; "APOLLOHOSP.NS"; "HEROMOTOCO.NS"; "BPCL.NS"; "IOC.NS";
    "INDUSINDBK.NS"; "AXISBANK.NS"; "VEDL.NS"; "ADANITRANS.NS"; "TATACONSUM.NS";
    "ADANIENT.NS"; "SIEMENS.NS"; "DLF.NS"; "GODREJCP.NS"; "DABUR.NS";
    "HAVELLS.NS"; "TRENT.NS"; "BEL.NS"; "BANKBARODA.NS"; "PNB.NS";
    "CANBK.NS"; "UNIONBANK.NS"; "INDHOTEL.NS"; "CONCOR.NS"; "BOSCHLTD.NS";
    "TATAPOWER.NS"; "TORNTPHARM.NS"; "COLPAL.NS"; "MARICO.NS"; "PIDILITIND.NS";
    "GLAND.NS"; "BERGEPAINT.NS"; "LUPIN.NS"; "AMBUJACEM.NS"; "ACC.NS";
    "ICICIPRULI.NS"; "SBILIFE.NS"; "HDFCLIFE.NS"; "BAJAJHLDNG.NS"; "MOTHERSON.NS";
    "VOLTAS.NS"; "AUBANK.NS"; "BANDHANBNK.NS"; "IDFCFIRSTB.NS"; "PEL.NS";
    "GODREJPROP.NS"; "OBEROIRLTY.NS"; "PRESTIGE.NS"; "MCDOWELL-N.NS"; "ABB.NS";
    "SBICARD.NS"; "INDIGO.NS"; "PETRONET.NS"; "MRF.NS"; "PAGEIND.NS";
    "ALKEM.NS"; "BIOCON.NS"; "DMART.NS"; "NAUKRI.NS"; "ZOMATO.NS"
  ].

Definition NIFTY_500_stocks : list string :=
  [
    "RELIANCE.NS"; "TCS.NS"; "INFY.NS"; "HDFCBANK.NS"; "ICICIBANK.NS";
    "HINDUNILVR.NS"; "SBIN.NS"; "BHARTIARTL.NS"; "ITC.NS"; "KOTAKBANK.NS";
    "LT.NS"; "ASIANPAINT.NS"; "MARUTI.NS"; "HCLTECH.NS"; "WIPRO.NS";
    "TITAN.NS"; "ULTRACEMCO.NS"; "ONGC.NS"; "TATASTEEL.NS"; "ADANIPORTS.NS";
    "POWERGRID.NS"; "NESTLEIND.NS"; "BAJFINANCE.NS"; "BAJAJFINSV.NS"; "TECHM.NS";
    "SUNPHARMA.NS"; "DRREDDY.NS"; "CIPLA.NS"; "DIVISLAB.NS"; "COALINDIA.NS";
    "NTPC.NS"; "JSWSTEEL.NS"; "TATAMOTORS.NS"; "M&M.NS"; "GRASIM.NS";
    "BRITANNIA.NS"; "SHREECEM.NS"; "EICHERMOT.NS"; "UPL.NS"; "HINDALCO.NS";
    "BAJAJ-AUTO.NS"; "APOLLOHOSP.NS"; "HEROMOTOCO.NS"; "BPCL.NS"; "IOC.NS";
    "INDUSINDBK.NS"; "AXISBANK.NS"; "VEDL.NS"; "ADANITRANS.NS"; "TATACONSUM.NS";
    "ADANIENT.NS"; "SIEMENS.NS"; "DLF.NS"; "GODREJCP.NS"; "DABUR.NS";
    "HAVELLS.NS"; "TRENT.NS"; "BEL.NS"; "BANKBARODA.NS"; "PNB.NS";
    "CANBK.NS"; "UNIONBANK.NS"; "INDHOTEL.NS"; "CONCOR.NS"; "BOSCHLTD.NS";
    "TATAPOWER.NS"; "TORNTPHARM.NS"; "COLPAL.NS"; "MARICO.NS"; "PIDILITIND.NS";
    "GLAND.NS"; "BERGEPAINT.NS"; "LUPIN.NS"; "AMBUJACEM.NS"; "ACC.NS";
    "ICICIPRULI.NS"; "SBILIFE.NS"; "HDFCLIFE.NS"; "BAJAJHLDNG.NS"; "MOTHERSON.NS";
    "VOLTAS.NS"; "AUBANK.NS"; "BANDHANBNK.NS"; "IDFCFIRSTB.NS"; "PEL.NS";
    "GODREJPROP.NS"; "OBEROIRLTY.NS"; "PRESTIGE.NS"; "MCDOWELL-N.NS"; "ABB.NS";
    "SBICARD.NS"; "INDIGO.NS"; "PETRONET.NS"; "MRF.NS"; "PAGEIND.NS";
    "ALKEM.NS"; "BIOCON.NS"; "DMART.NS"; "NAUKRI.NS"; "ZOMATO.NS";
    "PAYTM.NS"; "POLICYBZR.NS"; "ZEEL.NS"; "DIXON.NS"; "LTIM.NS";
    "PERSISTENT.NS"; "COFORGE.NS"; "MPHASIS.NS"; "LTTS.NS"; "HAPPSTMNDS.NS";
    "CROMPTON.NS"; "WHIRLPOOL.NS"; "CUMMINSIND.NS"; "ESCORTS.NS"; "ASHOKLEY.NS";
    "BALKRISIND.NS"; "APOLLOTYRE.NS"; "CEATLTD.NS"; "EXIDEIND.NS"; "AMARAJABAT.NS";
    "FORCEMOT.NS"; "TVSMOTOR.NS"; "BAJAJHIND.NS"; "METROPOLIS.NS"; "LALPATHLAB.NS";
    "AUROPHARMA.NS"; "IPCALAB.NS"; "LAURUSLABS.NS"; "NATCOPHARM.NS"; "PFIZER.NS";
    "ABBOTINDIA.NS"; "GLAXO.NS"; "SANOFI.NS"; "CENTRALBK.NS"; "INDIANB.NS";
    "MAHABANK.NS"; "CHOLAFIN.NS"; "LICHSGFIN.NS"; "SHRIRAMFIN.NS"; "IIFL.NS";
    "RECLTD.NS"; "PFC.NS"; "IRCTC.NS"; "IEX.NS"; "IRFC.NS";
    "RAILTEL.NS"; "HAL.NS"; "BDL.NS"; "COCHINSHIP.NS"; "MAZDA.NS";
    "GAIL.NS"; "GMRINFRA.NS"; "ADANIGREEN.NS"; "ADANIPOWER.NS"; "TATAELXSI.NS";
    "MFSL.NS"; "GNFC.NS"; "DEEPAKNTR.NS"; "BALRAMCHIN.NS"; "TATACHEM.NS";
    "PIIND.NS"; "SRF.NS"; "ATUL.NS"; "CHAMBLFERT.NS"; "COROMANDEL.NS";
    "MANAPPURAM.NS"; "MUTHOOTFIN.NS"; "SJVN.NS"; "NHPC.NS"; "ZENSARTECH.NS";
    "INFY.NS"; "INTELLECT.NS"; "SONATSOFTW.NS"; "KPITTECH.NS"; "CYIENT.NS";
    "RBLBANK.NS"; "FEDERALBNK.NS"; "IDBI.NS"; "CESC.NS"; "ADANIENSOL.NS";
    "JSL.NS"; "SAIL.NS"; "JINDALSTEL.NS"; "NMDC.NS"; "NATIONALUM.NS";
    "RATNAMANI.NS"; "WELCORP.NS"; "RELAXO.NS"; "BATA.NS"; "VBL.NS";
    "TATACOMM.NS"; "BHARATFORG.NS"; "TIMKEN.NS"; "SCHNEIDER.NS"; "CROMPTON.NS";
    "KEI.NS"; "POLYCAB.NS"; "APLAPOLLO.NS"; "ASTRAL.NS"; "SUPREMEIND.NS";
    "NILKAMAL.NS"; "SYMPHONY.NS"; "BLUESTARCO.NS"; "VGUARD.NS"; "FINEORG.NS";
    "EIDPARRY.NS"; "RAJESHEXPO.NS"; "TITAN.NS"; "MANYAVAR.NS"; "ABFRL.NS";
    "TRENT.NS"; "SHOPERSTOP.NS"; "JUBLFOOD.NS"; "WESTLIFE.NS"; "SAPPHIRE.NS";
    "GOCOLORS.NS"; "VMART.NS"; "BSOFT.NS"; "IRCON.NS"; "NBCC.NS";
    "REDINGTON.NS"; "AMBER.NS"; "ROUTE.NS"; "GICRE.NS"; "NIACL.NS";
    "STARHEALTH.NS"; "MAHLIFE.NS"; "ITI.NS"; "MTNL.NS"; "PVR.NS";
    "PVRINOX.NS"; "BASF.NS"; "HONAUT.NS"; "3MINDIA.NS"; "GILLETTE.NS";
    "BAYERCROP.NS"; "GRINDWELL.NS"; "CARBORUNIV.NS"; "SKFINDIA.NS"
  ].

Definition NIFTY_MIDCAP_stocks : list string :=
  [
    "GODREJCP.NS"; "DABUR.NS"; "HAVELLS.NS"; "TRENT.NS"; "BEL.NS";
    "BANKBARODA.NS"; "PNB.NS"; "CANBK.NS"; "UNIONBANK.NS"; "INDHOTEL.NS";
    "BOSCHLTD.NS"; "TATAPOWER.NS"; "TORNTPHARM.NS"; "COLPAL.NS"; "MARICO.NS";
    "PIDILITIND.NS"; "GLAND.NS"; "BERGEPAINT.NS"; "LUPIN.NS"; "AMBUJACEM.NS";
    "ACC.NS"; "ICICIPRULI.NS"; "SBILIFE.NS"; "HDFCLIFE.NS"; "MOTHERSON.NS";
    "VOLTAS.NS"; "AUBANK.NS"; "BANDHANBNK.NS"; "IDFCFIRSTB.NS"; "PEL.NS";
    "GODREJPROP.NS"; "OBEROIRLTY.NS"; "PRESTIGE.NS"; "ABB.NS"; "SBICARD.NS";
    "INDIGO.NS"; "PETRONET.NS"; "MRF.NS"; "ALKEM.NS"; "BIOCON.NS";
    "DMART.NS"; "NAUKRI.NS"; "DIXON.NS"; "LTIM.NS"; "PERSISTENT.NS";
    "COFORGE.NS"; "MPHASIS.NS"; "LTTS.NS"; "CROMPTON.NS"; "CUMMINSIND.NS"
  ].

Definition fallback_lists : list (string * list string) :=
  [ ("^NSEI", NIFTY_50_stocks);
    ("^BSESN", SENSEX_stocks);
    ("^CNX100", NIFTY_100_stocks);
    ("^CRSLDX", NIFTY_500_stocks);
    ("NIFTY_MIDCAP", NIFTY_MIDCAP_stocks) ].

(** [fallback_lists.get(index, fallback_lists["^NSEI"])]. *)
Definition _get_fallback_stocks (index : string) : list string :=
  dict_get fallback_lists index (dict_get fallback_lists "^NSEI" []).

(** The index codes the script documents, with their readable names. *)
Definition index_names : list (string * string) :=
  [ ("^NSEI", "NIFTY 50");
    ("^CRSLDX", "NIFTY 500");
    ("^BSESN", "SENSEX");
    ("^CNX100", "NIFTY 100");
    ("NIFTY_MIDCAP", "NIFTY Midcap") ].

(** The live lookup is tried first; whatever goes wrong there is
    swallowed and the curated list is used. *)
Definition _get_nifty_symbols (yf : YFinance) (index : string) : list string :=
  match constituents yf index with
  | Some cs =>
      if (0 <? List.length cs)%nat
      then map (fun symbol => if negb (endswith symbol ".NS")
                              then (symbol ++ ".NS")%string else symbol) cs
      else _get_fallback_stocks index
  | None => _get_fallback_stocks index
  end.

Definition __init__ (yf : YFinance) (portfolio_capital : Q) (index : string) : t :=
  let max_risk_per_trade := 0.02 in
  let max_position_size := 0.10 in
  {| portfolio_capital := portfolio_capital;
     max_risk_per_trade := max_risk_per_trade;
     max_position_size := max_position_size;
     max_risk_amount := portfolio_capital * max_risk_per_trade;
     max_position_amount := portfolio_capital * max_position_size;
     indian_stocks := _get_nifty_symbols yf index |}.

(** Market cap in crores; 0 when the lookup fails or the entry is
    missing. *)
Definition get_market_cap (yf : YFinance) (symbol : string) : Q :=
  match info_marketCap yf symbol with
  | Some market_cap_usd => (market_cap_usd * 83) / 10000000
  | None => 0
  end.

Definition get_stock_data (yf : YFinance) (symbol : string) : option DataFrame :=
  history yf symbol "1y".

(** [None] when the frame is empty: the three values are then NaN. *)
Definition calculate_52_week_range (data : DataFrame) : option (Q * Q * Q) :=
  match Series_max (map High data), Series_min (map Low data) with
  | Some week_52_high, Some week_52_low =>
      let midpoint := (week_52_high + week_52_low) / 2 in
      Some (week_52_high, week_52_low, midpoint)
  | _, _ => None
  end.

Definition check_first_half_criterion (current_price week_52_high week_52_low : Q) : bool :=
  let midpoint := (week_52_high + week_52_low) / 2 in
  Qle_bool week_52_low current_price && Qle_bool current_price midpoint.

Definition check_monthly_candle_criterion (data : DataFrame) (current_price : Q) : bool :=
  let current_month := last_30D data in
  if (List.length current_month =? 0)%nat then false else
  match Series_max (map High current_month), Series_min (map Low current_month) with
  | Some monthly_high, Some monthly_low =>
      let range_75_percent := monthly_low + 0.75 * (monthly_high - monthly_low) in
      Qle_bool range_75_percent current_price && Qle_bool current_price monthly_high
  | _, _ => false
  end.

Definition check_weekly_candle_criterion (data : DataFrame) : bool :=
  let weekly_data := resample_W data in
  if (List.length weekly_data <? 2)%nat then false else
  match rev weekly_data with
  | current_week :: previous_week :: _ =>
      let is_green := Qltb (Open current_week) (Close current_week) in
      let higher_high := Qltb (High previous_week) (High current_week) in
      is_green || higher_high
  | _ => false
  end.

Definition calculate_position_size (self : t) (current_price stop_loss target_price : Q)
  : Outcome (Z * Q * Q) :=
  (let risk_per_share := current_price - stop_loss in
   if Qle_bool risk_per_share 0 then Ret (0%Z, 0, 0) else
   let reward_per_share := target_price - current_price in
   risk_reward_ratio <- truediv reward_per_share risk_per_share ;;
   if Qle_bool risk_reward_ratio 1 then Ret (0%Z, 0, 0) else
   by_risk <- truediv (max_risk_amount self) risk_per_share ;;
   let max_qty_risk := int by_risk in
   by_position <- truediv (max_position_amount self) current_price ;;
   let max_qty_position := int by_position in
   let quantity := Z.min max_qty_risk max_qty_position in
   if (quantity <=? 0)%Z then Ret (0%Z, 0, 0) else
   let actual_risk := inject_Z quantity * risk_per_share in
   let potential_profit := inject_Z quantity * reward_per_share in
   Ret (quantity, actual_risk, potential_profit))%outcome.

(** [data['Close'].iloc[-1]]. *)
Definition last_close (data : DataFrame) : Outcome Q :=
  match iloc_last (map Close data) with
  | Some c => Ret c
  | None => Raise IndexError
  end.

Definition screen_stock (yf : YFinance) (self : t) (symbol : string)
  : Run (option ScreeningResult) :=
  (market_cap <- calling (call_get_market_cap symbol) (Ret (get_market_cap yf symbol)) ;;
   if Qltb market_cap 1000 then run_ret None else
   fetched <- calling (call_get_stock_data symbol) (Ret (get_stock_data yf symbol)) ;;
   match fetched with
   | None => run_ret None
   | Some data =>
   if (List.length data <? 50)%nat then run_ret None else
   current_price <- eval (last_close data) ;;
   range <- calling call_calculate_52_week_range (Ret (calculate_52_week_range data)) ;;
   match range with
   | None => run_ret None  (* a NaN range: not reached, the frame has rows *)
   | Some (week_52_high, week_52_low, midpoint) =>
   criterion_1 <- calling call_check_first_half_criterion
                    (Ret (check_first_half_criterion current_price week_52_high week_52_low)) ;;
   criterion_2 <- calling call_check_monthly_candle_criterion
                    (Ret (check_monthly_candle_criterion data current_price)) ;;
   criterion_3 <- calling call_check_weekly_candle_criterion
                    (Ret (check_weekly_candle_criterion data)) ;;
   if negb (criterion_1 && criterion_2 && criterion_3) then run_ret None else
   let stop_loss := week_52_low in
   let target_price := week_52_high in
   '(quantity, risk_amount, profit_potential) <-
      calling call_calculate_position_size
        (calculate_position_size self current_price stop_loss target_price) ;;
   if (quantity <=? 0)%Z then run_ret None else
   run_ret (Some
     {| symbol := symbol;
        current_price := current_price;
        entry_price := current_price;
        stop_loss := stop_loss;
        target_price := target_price;
        quantity := quantity;
        risk_amount := risk_amount;
        profit_potential := profit_potential;
        risk_reward_ratio :=
          if Qltb 0 risk_amount then profit_potential / risk_amount else 0;
        market_cap := market_cap;
        week_52_high := week_52_high;
        week_52_low := week_52_low;
        position_value := current_price * inject_Z quantity;
        criterion_1 := criterion_1;
        criterion_2 := criterion_2;
        criterion_3 := criterion_3 |})
   end
   end)%run.

(** The loop over the universe; an exception in one symbol ends it. *)
Fixpoint screen_symbols (yf : YFinance) (self : t) (symbols : list string)
  : Run (list ScreeningResult) :=
  match symbols with
  | [] => run_ret []
  | symbol :: rest =>
      (result <- screen_stock yf self symbol ;;
       qualified <- screen_symbols yf self rest ;;
       run_ret (match result with
                | Some r => r :: qualified
                | None => qualified
                end))%run
  end.

Definition screen_all_stocks (yf : YFinance) (self : t) : Run (list ScreeningResult) :=
  screen_symbols yf self (indian_stocks self).

End IndianStockStrategy.
Import IndianStockStrategy.

(** ** The script's entry point *)

Definition PORTFOLIO_CAPITAL : Q := 10000.
Definition INDEX : string := "^CRSLDX".

Definition qualified_stocks (yf : YFinance) : Run (list ScreeningResult) :=
  let strategy := __init__ yf PORTFOLIO_CAPITAL INDEX in
  screen_all_stocks yf strategy.

(** ** Sample inputs, used to run the definitions *)

Module Samples.

(** The risk configuration of the sizing example: risk cap 200, position
    cap 1000. *)
Definition sizing_config : IndianStockStrategy.t :=
  {| portfolio_capital := 10000;
     max_risk_per_trade := 0.02;
     max_position_size := 0.10;
     max_risk_amount := 200;
     max_position_amount := 1000;
     indian_stocks := [] |}.

(** Seven weeks of flat trading between 100 and 300, then, seven weeks
    later, one day that opens at 100 and closes at 118. *)
Definition old_bar (d : nat) : PriceBar :=
  {| Date := Z.of_nat d; Open := 200; High := 300; Low := 100; Close := 200;
     Volume := 1000 |}.

Definition latest_bar : PriceBar :=
  {| Date := 100; Open := 100; High := 120; Low := 100; Close := 118;
     Volume := 1000 |}.

Definition sample_history : DataFrame := map old_bar (seq 0 49) ++ [latest_bar].

(** Ten days of a history: too short to be screened. *)
Definition short_history : DataFrame := map old_bar (seq 0 10).


(** A provider that knows one history and one market cap (in USD) for every
    symbol, and no index constituents. *)
Definition provider (cap : option Q) (h : DataFrame) : YFinance :=
  {| info_marketCap := fun _ => cap;
     history := fun _ _ => Some h;
     constituents := fun _ => None |}.

(** A provider whose live constituent lookup answers. *)
Definition live_provider (cs : list string) : YFinance :=
  {| info_marketCap := fun _ => None;
     history := fun _ _ => None;
     constituents := fun _ => Some cs |}.

Definition strategy : IndianStockStrategy.t :=
  __init__ (provider None sample_history) 10000 "^NSEI".

End Samples.


(** ** The same methods on IEEE doubles

    Prices and amounts are Rocq's primitive binary64 floats, whose
    operations are those of the hardware and of numpy: rounding to
    nearest, infinities, NaN.  Dates and volumes stay integers, and the
    frames are those of [Frames]. *)

Module Binary64.

#[local] Set Warnings "-inexact-float".
Local Open Scope float_scope.

(** What a double stands for: the exact value of a finite double, or an
    infinity, or a NaN. *)
Inductive number : Type :=
| Finite (q : Q)
| Infinite
| NotANumber.

Definition value (x : float) : number :=
  match Prim2SF x with
  | S754_zero _ => Finite 0
  | S754_finite s m e => Finite (inject_Z (if s then Zneg m else Zpos m) * 2 ^ e)%Q
  | S754_infinity _ => Infinite
  | S754_nan => NotANumber
  end.

(** [int(x)] on a numpy double: truncation; an infinity or a NaN cannot be
    converted. *)
Definition int (x : float) : Outcome Z :=
  match value x with
  | Finite q => Ret (Py.int q)
  | Infinite => Raise OverflowError
  | NotANumber => Raise ValueError
  end.

(** The double a Python [int] becomes when it meets a double in a
    product. *)
Definition of_int (n : Z) : float := SF2Prim (binary_normalize prec emax n 0 false).

Record PriceBar : Type := {
  Date : Z;
  Open : float;
  High : float;
  Low : float;
  Close : float;
  Volume : Z
}.

Definition DataFrame : Type := list PriceBar.

(** [series.max()] and [series.min()] skip NaN cells; the result is NaN
    when nothing is left. *)
Definition skipna_max (acc x : float) : float :=
  if is_nan x then acc else if is_nan acc then x else if acc <? x then x else acc.

Definition skipna_min (acc x : float) : float :=
  if is_nan x then acc else if is_nan acc then x else if x <? acc then x else acc.

Definition Series_max (s : list float) : float := fold_left skipna_max s nan.
Definition Series_min (s : list float) : float := fold_left skipna_min s nan.

Definition last_30D (data : DataFrame) : DataFrame := Frames.last_days Date 30 data.

(** ['first'] and ['last'] of a bin: the first and the last cell that is
    not NaN. *)
Definition first_valid (s : list float) : float :=
  match filter (fun x => negb (is_nan x)) s with
  | x :: _ => x
  | [] => nan
  end.

Definition last_valid (s : list float) : float := first_valid (rev s).

Definition agg_week (g : list PriceBar) : PriceBar :=
  {| Date := Frames.bin_label Date g;
     Open := first_valid (map Open g);
     High := Series_max (map High g);
     Low := Series_min (map Low g);
     Close := last_valid (map Close g);
     Volume := int64_sum (map Volume g) |}.

(** [.dropna()]: rows with a NaN cell go. *)
Definition dropna (rows : DataFrame) : DataFrame :=
  filter (fun r => negb (is_nan (Open r) || is_nan (High r) ||
                         is_nan (Low r) || is_nan (Close r))) rows.

Definition resample_W (data : DataFrame) : DataFrame :=
  dropna (map agg_week (Frames.week_bins Date data)).

Record YFinance : Type := {
  info_marketCap : string -> option float;
  history : string -> string -> option DataFrame
}.

Record t : Type := {
  portfolio_capital : float;
  max_risk_per_trade : float;
  max_position_size : float;
  max_risk_amount : float;
  max_position_amount : float;
  indian_stocks : list string
}.

Record ScreeningResult : Type := {
  symbol : string;
  current_price : float;
  entry_price : float;
  stop_loss : float;
  target_price : float;
  quantity : Z;
  risk_amount : float;
  profit_potential : float;
  risk_reward_ratio : float;
  market_cap : float;
  week_52_high : float;
  week_52_low : float;
  position_value : float;
  criterion_1 : bool;
  criterion_2 : bool;
  criterion_3 : bool
}.

(** The universe is the result of [_get_nifty_symbols], in which no number
    occurs; it is passed in. *)
Definition __init__ (indian_stocks : list string) (portfolio_capital : float) : t :=
  let max_risk_per_trade := 0.02 in
  let max_position_size := 0.10 in
  {| portfolio_capital := portfolio_capital;
     max_risk_per_trade := max_risk_per_trade;
     max_position_size := max_position_size;
     max_risk_amount := portfolio_capital * max_risk_per_trade;
     max_position_amount := portfolio_capital * max_position_size;
     indian_stocks := indian_stocks |}.

(** The [marketCap] entry of [info] is held as a double. *)
Definition get_market_cap (yf : YFinance) (symbol : string) : float :=
  match info_marketCap yf symbol with
  | Some market_cap_usd => (market_cap_usd * 83) / 10000000
  | None => 0
  end.

Definition get_stock_data (yf : YFinance) (symbol : string) : option DataFrame :=
  history yf symbol "1y"%string.

(** On an empty frame the three values are NaN. *)
Definition calculate_52_week_range (data : DataFrame) : float * float * float :=
  let week_52_high := Series_max (map High data) in
  let week_52_low := Series_min (map Low data) in
  let midpoint := (week_52_high + week_52_low) / 2 in
  (week_52_high, week_52_low, midpoint).

Definition check_first_half_criterion (current_price week_52_high week_52_low : float) : bool :=
  let midpoint := (week_52_high + week_52_low) / 2 in
  (week_52_low <=? current_price) && (current_price <=? midpoint).

Definition check_monthly_candle_criterion (data : DataFrame) (current_price : float) : bool :=
  let current_month := last_30D data in
  if (List.length current_month =? 0)%nat then false else
  let monthly_high := Series_max (map High current_month) in
  let monthly_low := Series_min (map Low current_month) in
  let range_75_percent := monthly_low + 0.75 * (monthly_high - monthly_low) in
  (range_75_percent <=? current_price) && (current_price <=? monthly_high).

Definition check_weekly_candle_criterion (data : DataFrame) : bool :=
  let weekly_data := resample_W data in
  if (List.length weekly_data <? 2)%nat then false else
  match rev weekly_data with
  | current_week :: previous_week :: _ =>
      let is_green := Open current_week <? Close current_week in
      let higher_high := High previous_week <? High current_week in
      is_green || higher_high
  | _ => false
  end.

Definition calculate_position_size (self : t) (current_price stop_loss target_price : float)
  : Outcome (Z * float * float) :=
  (let risk_per_share := current_price - stop_loss in
   if risk_per_share <=? 0 then Ret (0%Z, 0, 0) else
   let reward_per_share := target_price - current_price in
   let risk_reward_ratio := reward_per_share / risk_per_share in
   if risk_reward_ratio <=? 1 then Ret (0%Z, 0, 0) else
   max_qty_risk <- int (max_risk_amount self / risk_per_share) ;;
   max_qty_position <- int (max_position_amount self / current_price) ;;
   let quantity := Z.min max_qty_risk max_qty_position in
   if (quantity <=? 0)%Z then Ret (0%Z, 0, 0) else
   let actual_risk := of_int quantity * risk_per_share in
   let potential_profit := of_int quantity * reward_per_share in
   Ret (quantity, actual_risk, potential_profit))%outcome.

Definition last_close (data : DataFrame) : Outcome float :=
  match iloc_last (map Close data) with
  | Some c => Ret c
  | None => Raise IndexError
  end.

Definition screen_stock (yf : YFinance) (self : t) (symbol : string)
  : Outcome (option ScreeningResult) :=
  (let market_cap := get_market_cap yf symbol in
   if market_cap <? 1000 then Ret None else
   match get_stock_data yf symbol with
   | None => Ret None
   | Some data =>
   if (List.length data <? 50)%nat then Ret None else
   current_price <- last_close data ;;
   let '(week_52_high, week_52_low, midpoint) := calculate_52_week_range data in
   let criterion_1 := check_first_half_criterion current_price week_52_high week_52_low in
   let criterion_2 := check_monthly_candle_criterion data current_price in
   let criterion_3 := check_weekly_candle_criterion data in
   if negb (criterion_1 && criterion_2 && criterion_3) then Ret None else
   let stop_loss := week_52_low in
   let target_price := week_52_high in
   sized <- calculate_position_size self current_price stop_loss target_price ;;
   let '(quantity, risk_amount, profit_potential) := sized in
   if (quantity <=? 0)%Z then Ret None else
   Ret (Some
     {| symbol := symbol;
        current_price := current_price;
        entry_price := current_price;
        stop_loss := stop_loss;
        target_price := target_price;
        quantity := quantity;
        risk_amount := risk_amount;
        profit_potential := profit_potential;
        risk_reward_ratio :=
          if 0 <? risk_amount then profit_potential / risk_amount else 0;
        market_cap := market_cap;
        week_52_high := week_52_high;
        week_52_low := week_52_low;
        position_value := current_price * of_int quantity;
        criterion_1 := criterion_1;
        criterion_2 := criterion_2;
        criterion_3 := criterion_3 |})
   end)%outcome.

(** Sample inputs of the double computations. *)

Module Samples.

(** The risk configuration of the sizing example: a capital of 10000, so a
    risk cap of 200.0 and a position cap of 1000.0. *)
Definition sizing_config : t := __init__ [] 10000.

(** A capital of zero: both caps are 0.0. *)
Definition empty_config : t := __init__ [] 0.






(** Forty-nine days between -100 and 300, then a day that closes at zero
    in the top quarter of its range. *)
Definition deep_bar (d : nat) : PriceBar :=
  {| Date := Z.of_nat d; Open := 200; High := 300; Low := -100; Close := 200;
     Volume := 1000 |}.

Definition zero_close_history : DataFrame :=
  map deep_bar (seq 0 49) ++
  [ {| Date := 100; Open := -10; High := 2; Low := -6; Close := 0; Volume := 1000 |} ].

(** A provider that knows one history and one market cap (in USD) for
    every symbol. *)
Definition provider (cap : option float) (h : DataFrame) : YFinance :=
  {| info_marketCap := fun _ => cap;
     history := fun _ _ => Some h |}.

End Samples.

End Binary64.

(** ** Notions and further inputs used to state properties *)

(** The seven calls of a run of [screen_stock] that reaches the sizer, in
    the order the method makes them. *)
Definition complete_run (ticker : string) : list Call :=
  [ call_get_market_cap ticker;
    call_get_stock_data ticker;
    call_calculate_52_week_range;
    call_check_first_half_criterion;
    call_check_monthly_candle_criterion;
    call_check_weekly_candle_criterion;
    call_calculate_position_size ].

(** Rows whose dates never decrease. *)
Definition chronological (data : DataFrame) : Prop :=
  StronglySorted (fun a b => (Date a <= Date b)%Z) data.

(** The volume traded over a frame. *)
Definition total_volume (data : DataFrame) : Z :=
  fold_right Z.add 0%Z (map Volume data).

Module Cases.

(** Forty-nine days between -100 and 300, then a day that closes at zero
    on the top quarter of its month. *)
Definition deep_bar (d : nat) : PriceBar :=
  {| Date := Z.of_nat d; Open := 200; High := 300; Low := -100; Close := 200;
     Volume := 1000 |}.

Definition zero_close_history : DataFrame :=
  map deep_bar (seq 0 49) ++
  [ {| Date := 100; Open := -10; High := 2; Low := -6; Close := 0; Volume := 1000 |} ].

(** Monday to Friday of one calendar week (days 4 to 8). *)
Definition one_week_history : DataFrame :=
  map (fun d => {| Date := Z.of_nat d; Open := 100; High := 120; Low := 90;
                   Close := 110; Volume := 500 |}) (seq 4 5).

(** A provider with a history for every symbol but "BAD.NS", whose history
    closes at zero. *)
Definition mixed_provider : YFinance :=
  {| info_marketCap := fun _ => Some 1000000000;
     history := fun s _ => if String.eqb s "BAD.NS"
                           then Some zero_close_history
                           else Some Samples.sample_history;
     constituents := fun _ => None |}.




(** Monday and Tuesday of one week, each with a volume of 2^62. *)
Definition heavy_week : DataFrame :=
  [ {| Date := 4; Open := 100; High := 120; Low := 90; Close := 110;
       Volume := 4611686018427387904 |};
    {| Date := 5; Open := 110; High := 130; Low := 100; Close := 120;
       Volume := 4611686018427387904 |} ].

End Cases.

(** * Properties *)

(** ** Numbers *)


Section Numbers.

Lemma Qltb_iff (x y : Q) : Qltb x y = true <-> x < y.
Proof.
  unfold Qltb. rewrite negb_true_iff.
  split; intro H.
  - apply Qnot_le_lt. intro Hle. apply Qle_bool_iff in Hle. congruence.
  - destruct (Qle_bool y x) eqn:E; [|reflexivity].
    apply Qle_bool_iff in E. exfalso. apply (Qlt_not_le _ _ H E).
Qed.

Lemma Qltb_false_iff (x y : Q) : Qltb x y = false <-> y <= x.
Proof.
  unfold Qltb. rewrite negb_false_iff. apply Qle_bool_iff.
Qed.










(** A positive whole number of units below a quotient costs no more than
    the dividend. *)
Lemma floor_quotient_bound (q : Z) (amount unit : Q) :
  0 < unit -> (q <= Qfloor (amount / unit))%Z -> inject_Z q * unit <= amount.
Proof.
  intros Hu Hq.
  assert (H1 : inject_Z q <= amount / unit).
  { apply Qle_trans with (inject_Z (Qfloor (amount / unit))).
    - now rewrite <- Zle_Qle.
    - apply Qfloor_le. }
  assert (H2 : inject_Z q * unit <= (amount / unit) * unit).
  { apply Qmult_le_compat_r; [exact H1 | lra]. }
  assert (H3 : (amount / unit) * unit == amount) by (field; lra).
  lra.
Qed.

End Numbers.

(** ** Position sizer *)

Section PositionSizer.

Variable self : IndianStockStrategy.t.
Variables entry stop target : Q.






End PositionSizer.

(** ** Screener: the run of [screen_stock], case by case *)

Section ScreenerCases.

Variable yf : YFinance.
Variable self : IndianStockStrategy.t.
Variable ticker : string.

Lemma screen_stock_cases :
  screen_stock yf self ticker =
    let c_cap := call_get_market_cap ticker in
    let c_data := call_get_stock_data ticker in
    let market_cap := get_market_cap yf ticker in
    if Qltb market_cap 1000 then ([c_cap], Ret None) else
    match get_stock_data yf ticker with
    | None => ([c_cap; c_data], Ret None)
    | Some data =>
      if (List.length data <? 50)%nat then ([c_cap; c_data], Ret None) else
      match last_close data with
      | Raise e => ([c_cap; c_data], Raise e)
      | Ret current_price =>
        match calculate_52_week_range data with
        | None => ([c_cap; c_data; call_calculate_52_week_range], Ret None)
        | Some (week_52_high, week_52_low, _) =>
          let criterion_1 :=
            check_first_half_criterion current_price week_52_high week_52_low in
          let criterion_2 := check_monthly_candle_criterion data current_price in
          let criterion_3 := check_weekly_candle_criterion data in
          let checked :=
            [c_cap; c_data; call_calculate_52_week_range;
             call_check_first_half_criterion; call_check_monthly_candle_criterion;
             call_check_weekly_candle_criterion] in
          if negb (criterion_1 && criterion_2 && criterion_3)
          then (checked, Ret None) else
          match calculate_position_size self current_price week_52_low week_52_high with
          | Raise e => (checked ++ [call_calculate_position_size], Raise e)
          | Ret (quantity, risk_amount, profit_potential) =>
            if (quantity <=? 0)%Z
            then (checked ++ [call_calculate_position_size], Ret None)
            else (checked ++ [call_calculate_position_size],
                  Ret (Some
                    {| symbol := ticker;
                       current_price := current_price;
                       entry_price := current_price;
                       stop_loss := week_52_low;
                       target_price := week_52_high;
                       quantity := quantity;
                       risk_amount := risk_amount;
                       profit_potential := profit_potential;
                       risk_reward_ratio :=
                         if Qltb 0 risk_amount
                         then profit_potential / risk_amount else 0;
                       market_cap := market_cap;
                       week_52_high := week_52_high;
                       week_52_low := week_52_low;
                       position_value := current_price * inject_Z quantity;
                       criterion_1 := criterion_1;
                       criterion_2 := criterion_2;
                       criterion_3 := criterion_3 |}))
          end
        end
      end
    end.
Proof.
  unfold screen_stock, calling, eval, run_ret. cbv zeta.
  cbn [run_bind].
  destruct (Qltb (get_market_cap yf ticker) 1000); [reflexivity|].
  destruct (get_stock_data yf ticker) as [data|]; [|reflexivity].
  destruct (List.length data <? 50)%nat; [reflexivity|].
  destruct (last_close data) as [current_price|e]; [|reflexivity].
  cbn [run_bind].
  destruct (calculate_52_week_range data) as [[[hi lo] mid]|]; [|reflexivity].
  cbn [run_bind].
  destruct (negb _); [reflexivity|].
  destruct (calculate_position_size self current_price lo hi)
    as [[[quantity risk] profit]|e]; [|reflexivity].
  cbn [run_bind].
  destruct (quantity <=? 0)%Z; reflexivity.
Qed.

End ScreenerCases.

(** ** Columns: max, min and the last row *)

Section Columns.

Lemma Qmax_cases (x y : Q) : Qmax x y = x \/ Qmax x y = y.
Proof.
  unfold Qmax, GenericMinMax.gmax. destruct (x ?= y); auto.
Qed.

Lemma Qmin_cases (x y : Q) : Qmin x y = x \/ Qmin x y = y.
Proof.
  unfold Qmin, GenericMinMax.gmin. destruct (x ?= y); auto.
Qed.

Lemma fold_Qmax_spec (xs : list Q) :
  forall x, In (fold_left Qmax xs x) (x :: xs) /\
            forall y, In y (x :: xs) -> y <= fold_left Qmax xs x.
Proof.
  induction xs as [|a xs IH]; intro x; simpl.
  - split; [now left|]. intros y [<-|[]]. apply Qle_refl.
  - destruct (IH (Qmax x a)) as [Hin Hub]. split.
    + destruct Hin as [Hin|Hin]; [|now right; right].
      rewrite <- Hin. destruct (Qmax_cases x a) as [->| ->]; auto.
    + intros y [<-|[<-|Hy]].
      * apply Qle_trans with (Qmax x a); [apply Q.le_max_l|]. apply Hub. now left.
      * apply Qle_trans with (Qmax x a); [apply Q.le_max_r|]. apply Hub. now left.
      * apply Hub. now right.
Qed.

Lemma fold_Qmin_spec (xs : list Q) :
  forall x, In (fold_left Qmin xs x) (x :: xs) /\
            forall y, In y (x :: xs) -> fold_left Qmin xs x <= y.
Proof.
  induction xs as [|a xs IH]; intro x; simpl.
  - split; [now left|]. intros y [<-|[]]. apply Qle_refl.
  - destruct (IH (Qmin x a)) as [Hin Hlb]. split.
    + destruct Hin as [Hin|Hin]; [|now right; right].
      rewrite <- Hin. destruct (Qmin_cases x a) as [->| ->]; auto.
    + intros y [<-|[<-|Hy]].
      * apply Qle_trans with (Qmin x a); [|apply Q.le_min_l]. apply Hlb. now left.
      * apply Qle_trans with (Qmin x a); [|apply Q.le_min_r]. apply Hlb. now left.
      * apply Hlb. now right.
Qed.

(** The maximum of a column is one of its entries and bounds them all. *)
Lemma Series_max_spec (s : list Q) (m : Q) :
  Series_max s = Some m -> In m s /\ forall y, In y s -> y <= m.
Proof.
  destruct s as [|x xs]; simpl; [discriminate|].
  intros [= <-]. apply fold_Qmax_spec.
Qed.

Lemma Series_min_spec (s : list Q) (m : Q) :
  Series_min s = Some m -> In m s /\ forall y, In y s -> m <= y.
Proof.
  destruct s as [|x xs]; simpl; [discriminate|].
  intros [= <-]. apply fold_Qmin_spec.
Qed.

(** The same for a column of a frame: a row attains the extreme. *)
Lemma column_max_spec (f : PriceBar -> Q) (rows : DataFrame) (m : Q) :
  Series_max (map f rows) = Some m ->
  (exists b, In b rows /\ f b = m) /\ (forall b, In b rows -> f b <= m).
Proof.
  intro H. apply Series_max_spec in H. destruct H as [Hin Hub]. split.
  - apply in_map_iff in Hin. destruct Hin as (b & Hb & Hin). eauto.
  - intros b Hb. apply Hub. now apply in_map.
Qed.

Lemma column_min_spec (f : PriceBar -> Q) (rows : DataFrame) (m : Q) :
  Series_min (map f rows) = Some m ->
  (exists b, In b rows /\ f b = m) /\ (forall b, In b rows -> m <= f b).
Proof.
  intro H. apply Series_min_spec in H. destruct H as [Hin Hlb]. split.
  - apply in_map_iff in Hin. destruct Hin as (b & Hb & Hin). eauto.
  - intros b Hb. apply Hlb. now apply in_map.
Qed.

Lemma Series_max_defined (s : list Q) : s <> [] -> exists m, Series_max s = Some m.
Proof.
  destruct s; [congruence|]. intros _. simpl. eauto.
Qed.

Lemma Series_min_defined (s : list Q) : s <> [] -> exists m, Series_min s = Some m.
Proof.
  destruct s; [congruence|]. intros _. simpl. eauto.
Qed.

Lemma iloc_last_app {A : Type} (l : list A) (x : A) : iloc_last (l ++ [x]) = Some x.
Proof.
  induction l as [|a l IH]; [reflexivity|].
  simpl. destruct (l ++ [x]) eqn:E; [|exact IH].
  destruct l; discriminate.
Qed.

Lemma iloc_last_inv {A : Type} (l : list A) (x : A) :
  iloc_last l = Some x -> exists front, l = front ++ [x].
Proof.
  induction l as [|a l IH]; [discriminate|].
  destruct l as [|b l].
  - intros [= <-]. now exists [].
  - intro H. destruct (IH H) as [front ->]. now exists (a :: front).
Qed.

Lemma iloc_last_defined {A : Type} (l : list A) : l <> [] -> exists x, iloc_last l = Some x.
Proof.
  induction l as [|a l IH]; [congruence|]. intros _.
  destruct l as [|b l]; [now exists a|].
  destruct IH as [x Hx]; [discriminate|]. now exists x.
Qed.

Lemma last_close_defined (data : DataFrame) :
  data <> [] -> exists current_price, last_close data = Ret current_price.
Proof.
  intro H. unfold last_close.
  destruct (iloc_last_defined (map Close data)) as [c ->]; [|eauto].
  destruct data; [congruence|discriminate].
Qed.

Lemma last_close_inv (data : DataFrame) (c : Q) :
  last_close data = Ret c -> exists front b, data = front ++ [b] /\ Close b = c.
Proof.
  unfold last_close. destruct (iloc_last (map Close data)) as [c'|] eqn:E; [|discriminate].
  intros [= <-]. apply iloc_last_inv in E. destruct E as [front E].
  apply map_eq_app in E. destruct E as (l1 & l2 & -> & _ & E2).
  destruct l2 as [|b [|? ?]]; try discriminate.
  injection E2 as E2. now exists l1, b.
Qed.

Lemma range_inv (data : DataFrame) (high low mid : Q) :
  calculate_52_week_range data = Some (high, low, mid) ->
  Series_max (map High data) = Some high /\
  Series_min (map Low data) = Some low /\
  mid = (high + low) / 2.
Proof.
  unfold calculate_52_week_range.
  destruct (Series_max (map High data)); [|discriminate].
  destruct (Series_min (map Low data)); [|discriminate].
  intros [= <- <- <-]. auto.
Qed.

Lemma range_defined (data : DataFrame) :
  data <> [] -> exists high low mid, calculate_52_week_range data = Some (high, low, mid).
Proof.
  intro H. unfold calculate_52_week_range.
  destruct (Series_max_defined (map High data)) as [h ->]; [destruct data; [congruence|discriminate]|].
  destruct (Series_min_defined (map Low data)) as [l ->]; [destruct data; [congruence|discriminate]|].
  eauto.
Qed.

End Columns.

(** ** C1: the position sizer, on doubles *)

Section Binary64Sizer.

#[local] Set Warnings "-inexact-float".

(** The conversions between doubles and Python integers, run on a few
    numbers: [int()] truncates toward zero and refuses an infinity and a
    NaN; a Python [int] enters a product as the double of the same
    value. *)
Lemma binary64_conversions_checked :
  Binary64.int 17.9 = Ret 17%Z /\
  Binary64.int (-17.9) = Ret (-17)%Z /\
  Binary64.int 0.5 = Ret 0%Z /\
  Binary64.int 4611686018427387904 = Ret 4611686018427387904%Z /\
  Binary64.int infinity = Raise OverflowError /\
  Binary64.int neg_infinity = Raise OverflowError /\
  Binary64.int nan = Raise ValueError /\
  Binary64.of_int 17 = 17%float /\
  Binary64.of_int 0 = 0%float /\
  Binary64.of_int (-3) = (-3)%float /\
  Binary64.of_int 9007199254740993 = 9007199254740992%float.
Proof.
  repeat split; vm_compute; reflexivity.
Qed.

(** The sizer, case by case: the two early returns, then the two
    conversions in the order the method makes them. *)
Lemma binary64_size_cases (self : Binary64.t) (entry stop target : float) :
  Binary64.calculate_position_size self entry stop target =
    if (entry - stop <=? 0)%float then Ret (0%Z, 0%float, 0%float) else
    if ((target - entry) / (entry - stop) <=? 1)%float then Ret (0%Z, 0%float, 0%float) else
    match Binary64.value (Binary64.max_risk_amount self / (entry - stop)),
          Binary64.value (Binary64.max_position_amount self / entry) with
    | Binary64.Finite q_risk, Binary64.Finite q_position =>
        let quantity := Z.min (Py.int q_risk) (Py.int q_position) in
        if (quantity <=? 0)%Z then Ret (0%Z, 0%float, 0%float)
        else Ret (quantity, (Binary64.of_int quantity * (entry - stop))%float,
                  (Binary64.of_int quantity * (target - entry))%float)
    | Binary64.Finite _, Binary64.Infinite => Raise OverflowError
    | Binary64.Finite _, Binary64.NotANumber => Raise ValueError
    | Binary64.Infinite, _ => Raise OverflowError
    | Binary64.NotANumber, _ => Raise ValueError
    end.
Proof.
  unfold Binary64.calculate_position_size, Binary64.int. cbv zeta.
  destruct (entry - stop <=? 0)%float; [reflexivity|].
  destruct ((target - entry) / (entry - stop) <=? 1)%float; [reflexivity|].
  destruct (Binary64.value (Binary64.max_risk_amount self / (entry - stop)));
    cbn [Py.bind]; try reflexivity.
  destruct (Binary64.value (Binary64.max_position_amount self / entry));
    cbn [Py.bind]; reflexivity.
Qed.




End Binary64Sizer.

(** ** Frames: the sort, the search and the weekly bins *)

Section SortByDate.

Context {Row : Type}.
Variable date : Row -> Z.

Lemma insert_by_date_perm (b : Row) (l : list Row) :
  Permutation (b :: l) (Frames.insert_by_date date b l).
Proof.
  induction l as [|c l IH]; [reflexivity|].
  cbn [Frames.insert_by_date]. destruct (date b <=? date c)%Z; [reflexivity|].
  rewrite perm_swap. now apply perm_skip.
Qed.

Lemma sort_by_date_perm (data : list Row) :
  Permutation data (Frames.sort_by_date date data).
Proof.
  induction data as [|b rest IH]; [reflexivity|].
  cbn [Frames.sort_by_date].
  rewrite <- insert_by_date_perm. now apply perm_skip.
Qed.

Lemma sort_by_date_In (data : list Row) (b : Row) :
  In b (Frames.sort_by_date date data) <-> In b data.
Proof.
  split; intro H.
  - eapply Permutation_in; [symmetry; apply sort_by_date_perm | exact H].
  - eapply Permutation_in; [apply sort_by_date_perm | exact H].
Qed.

Lemma insert_by_date_sorted (b : Row) (l : list Row) :
  StronglySorted (fun a b => (date a <= date b)%Z) l -> StronglySorted (fun a b => (date a <= date b)%Z) (Frames.insert_by_date date b l).
Proof.
  induction l as [|c l IH]; intro Hs.
  - repeat constructor.
  - apply StronglySorted_inv in Hs. destruct Hs as [Hl Hc].
    cbn [Frames.insert_by_date]. destruct (date b <=? date c)%Z eqn:E.
    + apply Z.leb_le in E. constructor; [now constructor|].
      constructor; [exact E|].
      rewrite Forall_forall in *. intros x Hx. specialize (Hc x Hx). lia.
    + apply Z.leb_gt in E. constructor; [now apply IH|].
      rewrite Forall_forall in *. intros x Hx.
      eapply Permutation_in in Hx; [|symmetry; apply insert_by_date_perm].
      destruct Hx as [<-|Hx]; [lia | now apply Hc].
Qed.

(** The sort gives a chronological frame with the same rows. *)
Lemma sort_by_date_sorted (data : list Row) :
  StronglySorted (fun a b => (date a <= date b)%Z) (Frames.sort_by_date date data).
Proof.
  induction data as [|b rest IH]; [constructor|].
  cbn [Frames.sort_by_date]. now apply insert_by_date_sorted.
Qed.

(** A chronological frame is left as it is. *)
Lemma sort_by_date_chronological (data : list Row) :
  StronglySorted (fun a b => (date a <= date b)%Z) data -> Frames.sort_by_date date data = data.
Proof.
  induction data as [|b rest IH]; intro Hs; [reflexivity|].
  apply StronglySorted_inv in Hs. destruct Hs as [Hrest Hb].
  cbn [Frames.sort_by_date]. rewrite (IH Hrest).
  destruct rest as [|c rest']; [reflexivity|].
  cbn [Frames.insert_by_date].
  assert (E : (date b <=? date c)%Z = true).
  { apply Z.leb_le. rewrite Forall_forall in Hb. apply Hb. now left. }
  now rewrite E.
Qed.

Lemma insert_by_date_stable (d : Z) (b : Row) (l : list Row) :
  filter (fun r => (date r =? d)%Z) (Frames.insert_by_date date b l)
  = filter (fun r => (date r =? d)%Z) (b :: l).
Proof.
  induction l as [|c l IH]; [reflexivity|].
  cbn [Frames.insert_by_date]. destruct (date b <=? date c)%Z eqn:E; [reflexivity|].
  apply Z.leb_gt in E. cbn [filter] in *. rewrite IH.
  destruct (date b =? d)%Z eqn:Eb; destruct (date c =? d)%Z eqn:Ec;
    try reflexivity.
  apply Z.eqb_eq in Eb, Ec. lia.
Qed.

(** The sort is stable: rows of one date keep their order. *)
Lemma sort_by_date_stable (d : Z) (data : list Row) :
  filter (fun r => (date r =? d)%Z) (Frames.sort_by_date date data)
  = filter (fun r => (date r =? d)%Z) data.
Proof.
  induction data as [|b rest IH]; [reflexivity|].
  cbn [Frames.sort_by_date]. rewrite insert_by_date_stable.
  cbn [filter]. now rewrite IH.
Qed.

End SortByDate.

Section Bisect.

Variable at_ : nat -> Z.
Variable key : Z.

Lemma half_lt (lo hi : nat) : (lo < hi)%nat -> (lo <= lo + (hi - lo) / 2 < hi)%nat.
Proof.
  intro H. split; [lia|].
  assert ((hi - lo) / 2 < hi - lo)%nat by (apply Nat.div_lt; lia).
  lia.
Qed.

(** Whatever the order of the index: when the key is below the last
    entry, the search stops at or before the last position. *)
Lemma bisect_right_below_last (n fuel lo hi : nat) :
  (1 <= n)%nat -> (key < at_ (n - 1)%nat)%Z ->
  (lo <= hi <= n)%nat -> (lo <= n - 1)%nat ->
  (Frames.bisect_right fuel at_ key lo hi <= n - 1)%nat.
Proof.
  intros Hn Hlast. revert lo hi.
  induction fuel as [|fuel IH]; intros lo hi Hb Hlo; cbn [Frames.bisect_right]; [exact Hlo|].
  destruct (lo <? hi)%nat eqn:E; [|exact Hlo].
  apply Nat.ltb_lt in E. pose proof (half_lt lo hi E) as Hmid.
  destruct (key <? at_ (lo + (hi - lo) / 2)%nat)%Z eqn:Ek.
  - apply IH; lia.
  - apply Z.ltb_ge in Ek.
    assert (lo + (hi - lo) / 2 <> n - 1)%nat by (intro Heq; rewrite Heq in Ek; lia).
    apply IH; lia.
Qed.

Variable n : nat.
Hypothesis at_monotone : forall i j, (i <= j < n)%nat -> (at_ i <= at_ j)%Z.

(** On a sorted index the search finds the split point: the entries up to
    the key are exactly those before it. *)
Lemma bisect_right_split (fuel lo hi : nat) :
  (lo <= hi <= n)%nat -> (hi - lo <= fuel)%nat ->
  (forall i, (i < lo)%nat -> (at_ i <= key)%Z) ->
  (forall i, (hi <= i < n)%nat -> (key < at_ i)%Z) ->
  let r := Frames.bisect_right fuel at_ key lo hi in
  (r <= n)%nat /\
  (forall i, (i < r)%nat -> (at_ i <= key)%Z) /\
  (forall i, (r <= i < n)%nat -> (key < at_ i)%Z).
Proof.
  revert lo hi.
  induction fuel as [|fuel IH]; intros lo hi Hb Hf Hlow Hhigh; cbn [Frames.bisect_right].
  - assert (lo = hi) by lia. subst hi. cbv zeta. repeat split; [lia|exact Hlow|exact Hhigh].
  - destruct (lo <? hi)%nat eqn:E.
    + apply Nat.ltb_lt in E. pose proof (half_lt lo hi E) as Hmid.
      destruct (key <? at_ (lo + (hi - lo) / 2)%nat)%Z eqn:Ek.
      * apply Z.ltb_lt in Ek. apply IH; [lia|lia|exact Hlow|].
        intros i Hi. pose proof (at_monotone (lo + (hi - lo) / 2)%nat i).
        lia.
      * apply Z.ltb_ge in Ek. apply IH; [lia|lia| |].
        -- intros i Hi. pose proof (at_monotone i (lo + (hi - lo) / 2)%nat).
           lia.
        -- intros i Hi. apply Hhigh. lia.
    + apply Nat.ltb_ge in E. assert (lo = hi) by lia. subst hi.
      cbv zeta. repeat split; [lia|exact Hlow|exact Hhigh].
Qed.

End Bisect.

Section LastDays.

Context {Row : Type}.
Variable date : Row -> Z.

(** A split point of a frame cuts it where a filter on the date would. *)
Lemma skipn_split_point (key : Z) (data : list Row) (r : nat) :
  (r <= List.length data)%nat ->
  (forall i, (i < r)%nat -> (nth i (map date data) 0 <= key)%Z) ->
  (forall i, (r <= i < List.length data)%nat -> (key < nth i (map date data) 0)%Z) ->
  skipn r data = filter (fun b => (key <? date b)%Z) data.
Proof.
  revert r. induction data as [|b rest IH]; intros r Hr Hlow Hhigh.
  - now destruct r.
  - destruct r as [|r].
    + cbn [skipn]. symmetry. apply forallb_filter_id.
      apply forallb_forall. intros x Hx.
      destruct (In_nth _ _ b Hx) as [i [Hi Hnth]].
      specialize (Hhigh i (conj (Nat.le_0_l i) Hi)).
      apply Z.ltb_lt.
      rewrite (nth_indep _ 0%Z (date b)) in Hhigh by (now rewrite length_map).
      rewrite (map_nth date) in Hhigh. now rewrite Hnth in Hhigh.
    + cbn [skipn filter].
      assert (E : (key <? date b)%Z = false).
      { apply Z.ltb_ge. apply (Hlow 0%nat). lia. }
      rewrite E. apply IH.
      * cbn [List.length] in Hr. lia.
      * intros i Hi. apply (Hlow (S i)). lia.
      * intros i Hi. apply (Hhigh (S i)). cbn [List.length]. lia.
Qed.

Lemma nth_sorted (data : list Row) :
  StronglySorted (fun a b => (date a <= date b)%Z) data ->
  forall i j, (i <= j < List.length data)%nat ->
  (nth i (map date data) 0 <= nth j (map date data) 0)%Z.
Proof.
  induction 1 as [|b rest Hs IH Hb]; intros i j Hij.
  - cbn in Hij. lia.
  - destruct j as [|j].
    + assert (i = 0)%nat by lia. subst i. lia.
    + destruct i as [|i].
      * cbn [map nth]. rewrite Forall_forall in Hb.
        cbn [List.length] in Hij.
        rewrite (nth_indep _ 0%Z (date b)) by (rewrite length_map; lia).
        rewrite (map_nth date). apply Hb. apply nth_In. lia.
      * cbn [map nth]. apply IH. cbn [List.length] in Hij. lia.
Qed.

(** On a chronological frame, [last] keeps the rows later than the last
    date minus the offset. *)
Lemma last_days_chronological (days : Z) (front : list Row) (last : Row) :
  StronglySorted (fun a b => (date a <= date b)%Z) (front ++ [last]) ->
  Frames.last_days date days (front ++ [last])
  = filter (fun b => (date last - days <? date b)%Z) (front ++ [last]).
Proof.
  intro Hs. unfold Frames.last_days. rewrite iloc_last_app.
  unfold Frames.searchsorted_right. rewrite length_map.
  set (data := front ++ [last]) in *.
  pose proof (@bisect_right_split (fun i => nth i (map date data) 0%Z)
                (date last - days) (List.length data) (nth_sorted data Hs)
                (List.length data) 0 (List.length data)) as H.
  cbv zeta in H.
  destruct H as [Hr [Hlow Hhigh]]; [lia|lia|intros i Hi; lia|intros i Hi; lia|].
  now apply skipn_split_point.
Qed.

(** Whatever the order of the rows, with a positive offset the window is
    a tail of the frame that keeps its last row. *)
Lemma last_days_tail (days : Z) (front : list Row) (last : Row) :
  (0 < days)%Z ->
  exists older kept,
    front = older ++ kept /\
    Frames.last_days date days (front ++ [last]) = kept ++ [last].
Proof.
  intro Hd. unfold Frames.last_days. rewrite iloc_last_app.
  unfold Frames.searchsorted_right. rewrite length_map.
  set (data := front ++ [last]).
  set (r := Frames.bisect_right _ _ _ _ _).
  assert (Hlen : List.length data = S (List.length front)).
  { unfold data. rewrite length_app. cbn. lia. }
  assert (Hr : (r <= List.length front)%nat).
  { unfold r.
    pose proof (@bisect_right_below_last (fun i => nth i (map date data) 0%Z)
                  (date last - days) (List.length data) (List.length data)
                  0 (List.length data)) as H.
    rewrite !Hlen in H. rewrite Hlen.
    replace (S (List.length front) - 1)%nat with (List.length front) in H by lia.
    apply H; try lia.
    unfold data. rewrite map_app, app_nth2 by (rewrite length_map; lia).
    rewrite length_map, Nat.sub_diag. cbn. lia. }
  exists (firstn r front), (skipn r front). split.
  - symmetry. apply firstn_skipn.
  - unfold data. rewrite skipn_app.
    replace (r - List.length front)%nat with 0%nat by lia. reflexivity.
Qed.

End LastDays.

Section WeekBins.

Context {Row : Type}.
Variable date : Row -> Z.

Lemma week_of_monotone (d d' : Z) : (d <= d')%Z -> (week_of d <= week_of d')%Z.
Proof.
  intro H. unfold week_of. apply Z.div_le_mono; lia.
Qed.

Lemma week_label_bounds (d : Z) : (d <= week_label d <= d + 6)%Z.
Proof.
  unfold week_label, week_of.
  pose proof (Z.div_mod (d + 3) 7 ltac:(lia)) as Hdm.
  pose proof (Z.mod_pos_bound (d + 3) 7 ltac:(lia)) as Hmod.
  lia.
Qed.

(** Labels are Sundays: day 3 is Sunday 4 January 1970. *)
Lemma week_label_sunday (d : Z) : (week_label d mod 7 = 3)%Z.
Proof.
  unfold week_label. rewrite Z.add_comm, Z.mul_comm, Z.mod_add by lia. reflexivity.
Qed.

Lemma week_label_eq (d d' : Z) : week_label d = week_label d' <-> week_of d = week_of d'.
Proof.
  unfold week_label. lia.
Qed.

Lemma group_weeks_concat (data : list Row) :
  List.concat (Frames.group_weeks date data) = data.
Proof.
  induction data as [|b rest IH]; [reflexivity|].
  simpl. destruct (Frames.group_weeks date rest) as [|[|b' g] gs]; simpl in *.
  - now rewrite <- IH.
  - now rewrite <- IH.
  - destruct (week_of (date b) =? week_of (date b'))%Z; simpl; now rewrite <- IH.
Qed.

Lemma group_weeks_nonempty (data : list Row) :
  Forall (fun g => g <> []) (Frames.group_weeks date data).
Proof.
  induction data as [|b rest IH]; [constructor|].
  simpl. destruct (Frames.group_weeks date rest) as [|[|b' g] gs].
  - repeat constructor. discriminate.
  - constructor; [discriminate|assumption].
  - destruct (week_of (date b) =? week_of (date b'))%Z.
    + inversion IH; subst. constructor; [discriminate|assumption].
    + constructor; [discriminate|assumption].
Qed.

(** The rows of one bin fall in one calendar week. *)
Lemma group_weeks_same_week (data : list Row) :
  Forall (fun g => forall b b', In b g -> In b' g ->
                                week_of (date b) = week_of (date b'))
         (Frames.group_weeks date data).
Proof.
  induction data as [|b rest IH]; [constructor|].
  simpl. destruct (Frames.group_weeks date rest) as [|[|b' g] gs].
  - repeat constructor. intros x y [<-|[]] [<-|[]]. reflexivity.
  - constructor; [|assumption]. intros x y [<-|[]] [<-|[]]. reflexivity.
  - destruct (week_of (date b) =? week_of (date b'))%Z eqn:E.
    + apply Z.eqb_eq in E. inversion IH as [|? ? Hg Hgs]; subst.
      constructor; [|assumption].
      assert (Hb : forall y, In y (b' :: g) -> week_of (date b) = week_of (date y)).
      { intros y Hy. rewrite E. apply Hg; [now left | exact Hy]. }
      intros x y [<-|Hx] [<-|Hy].
      * reflexivity.
      * now apply Hb.
      * symmetry. now apply Hb.
      * now apply Hg.
    + constructor; [|assumption].
      intros x y [<-|[]] [<-|[]]. reflexivity.
Qed.

(** The first row of the first bin is the first row of the frame. *)
Lemma group_weeks_head (rest : list Row) (b : Row) (g : list Row)
      (bins : list (list Row)) :
  Frames.group_weeks date rest = (b :: g) :: bins -> exists tail, rest = b :: tail.
Proof.
  intro H. pose proof (group_weeks_concat rest) as Hc. rewrite H in Hc.
  cbn [List.concat app] in Hc. eauto.
Qed.

Lemma group_weeks_one_week (data : list Row) :
  (forall b b', In b data -> In b' data -> week_of (date b) = week_of (date b')) ->
  (List.length (Frames.group_weeks date data) <= 1)%nat.
Proof.
  induction data as [|b rest IH]; intro Hweek; [simpl; lia|].
  assert (Hrest : (List.length (Frames.group_weeks date rest) <= 1)%nat).
  { apply IH. intros x y Hx Hy. apply Hweek; now right. }
  pose proof (group_weeks_nonempty rest) as Hne.
  cbn [Frames.group_weeks]. destruct (Frames.group_weeks date rest) as [|[|b' g] gs] eqn:E.
  - simpl. lia.
  - inversion Hne; congruence.
  - destruct (group_weeks_head _ _ _ _ E) as [tail ->].
    assert (Hsame : (week_of (date b) =? week_of (date b'))%Z = true).
    { apply Z.eqb_eq. apply Hweek; [now left | right; now left]. }
    rewrite Hsame. simpl in *. lia.
Qed.

Lemma group_weeks_length (data : list Row) :
  (List.length (Frames.group_weeks date data) <= List.length data)%nat.
Proof.
  induction data as [|b rest IH]; [apply Nat.le_refl|].
  cbn [Frames.group_weeks]. destruct (Frames.group_weeks date rest) as [|[|b' g] gs].
  - simpl. lia.
  - simpl in *. lia.
  - destruct (week_of (date b) =? week_of (date b'))%Z; simpl in *; lia.
Qed.

Lemma group_labels_increase (data : list Row) :
  StronglySorted (fun a b => (date a <= date b)%Z) data ->
  Sorted Z.lt (map (Frames.bin_label date) (Frames.group_weeks date data)).
Proof.
  induction data as [|b rest IH]; intro Hsorted; [constructor|].
  apply StronglySorted_inv in Hsorted. destruct Hsorted as [Hrest Hb].
  specialize (IH Hrest).
  pose proof (group_weeks_nonempty rest) as Hne.
  cbn [Frames.group_weeks]. destruct (Frames.group_weeks date rest) as [|[|b' g] gs] eqn:E.
  - repeat constructor.
  - inversion Hne; congruence.
  - destruct (group_weeks_head _ _ _ _ E) as [tail ->].
    destruct (week_of (date b) =? week_of (date b'))%Z eqn:Ew.
    + apply Z.eqb_eq in Ew. cbn [map Frames.bin_label] in *.
      unfold week_label in *. rewrite Ew. exact IH.
    + apply Z.eqb_neq in Ew. cbn [map Frames.bin_label] in *.
      constructor; [exact IH|]. constructor.
      rewrite Forall_forall in Hb.
      pose proof (week_of_monotone _ _ (Hb b' (or_introl eq_refl))) as Hmono.
      unfold week_label. lia.
Qed.

Lemma group_labels_sorted (data : list Row) :
  StronglySorted (fun a b => (date a <= date b)%Z) data ->
  StronglySorted Z.lt (map (Frames.bin_label date) (Frames.group_weeks date data)).
Proof.
  intro Hs. apply Sorted_StronglySorted.
  - intros x y z. apply Z.lt_trans.
  - now apply group_labels_increase.
Qed.

Lemma filter_none {A : Type} (f : A -> bool) (l : list A) :
  (forall x, In x l -> f x = false) -> filter f l = [].
Proof.
  induction l as [|x l IH]; intro H; [reflexivity|].
  cbn [filter]. rewrite (H x (or_introl eq_refl)). apply IH.
  intros y Hy. apply H. now right.
Qed.

Lemma filter_all {A : Type} (f : A -> bool) (l : list A) :
  (forall x, In x l -> f x = true) -> filter f l = l.
Proof.
  induction l as [|x l IH]; intro H; [reflexivity|].
  cbn [filter]. rewrite (H x (or_introl eq_refl)). f_equal. apply IH.
  intros y Hy. apply H. now right.
Qed.

(** Bins of distinct labels: the rows of a label are those of its bin. *)
Lemma labelled_bins_filter (bins : list (list Row)) :
  Forall (fun g => g <> []) bins ->
  Forall (fun g => forall b, In b g -> week_label (date b) = Frames.bin_label date g) bins ->
  StronglySorted Z.lt (map (Frames.bin_label date) bins) ->
  forall g, In g bins ->
    filter (fun b => (week_label (date b) =? Frames.bin_label date g)%Z) (List.concat bins) = g.
Proof.
  induction bins as [|g0 bins IH]; intros Hne Hlab Hsorted g Hg; [destruct Hg|].
  apply Forall_cons_iff in Hne. destruct Hne as [Hne0 Hne].
  apply Forall_cons_iff in Hlab. destruct Hlab as [Hlab0 Hlab].
  cbn [map] in Hsorted. apply StronglySorted_inv in Hsorted.
  destruct Hsorted as [Hsorted Hlt]. rewrite Forall_forall in Hlt.
  cbn [List.concat]. rewrite filter_app.
  destruct Hg as [<-|Hg].
  - rewrite filter_all.
    2:{ intros b Hb. apply Z.eqb_eq. now apply Hlab0. }
    rewrite filter_none; [apply app_nil_r|].
    intros b Hb. apply Z.eqb_neq. apply in_concat in Hb.
    destruct Hb as (g' & Hg' & Hb).
    rewrite Forall_forall in Hlab. rewrite (Hlab g' Hg' b Hb).
    specialize (Hlt (Frames.bin_label date g') (in_map _ _ _ Hg')). lia.
  - rewrite filter_none.
    2:{ intros b Hb. apply Z.eqb_neq. rewrite (Hlab0 b Hb).
        specialize (Hlt (Frames.bin_label date g) (in_map _ _ _ Hg)). lia. }
    cbn [app]. now apply IH.
Qed.

Lemma group_weeks_labelled (data : list Row) :
  Forall (fun g => forall b, In b g -> week_label (date b) = Frames.bin_label date g)
         (Frames.group_weeks date data).
Proof.
  pose proof (group_weeks_same_week data) as Hw.
  rewrite Forall_forall in *. intros g Hg b Hb.
  destruct g as [|first rest]; [destruct Hb|].
  cbn [Frames.bin_label]. apply week_label_eq. apply (Hw _ Hg); [exact Hb | now left].
Qed.

(** In a chronological frame the bin of a week holds all the rows of that
    week, in the order of the frame. *)
Lemma group_weeks_filter (data : list Row) (g : list Row) :
  StronglySorted (fun a b => (date a <= date b)%Z) data ->
  In g (Frames.group_weeks date data) ->
  g = filter (fun b => (week_label (date b) =? Frames.bin_label date g)%Z) data.
Proof.
  intros Hs Hg. symmetry.
  rewrite <- (group_weeks_concat data) at 1.
  apply labelled_bins_filter;
    [apply group_weeks_nonempty | apply group_weeks_labelled
     | now apply group_labels_sorted | exact Hg].
Qed.

(** The same for the bins of any frame, over its rows sorted by date. *)
Lemma week_bins_filter (data : list Row) (g : list Row) :
  In g (Frames.week_bins date data) ->
  g = filter (fun b => (week_label (date b) =? Frames.bin_label date g)%Z)
             (Frames.sort_by_date date data).
Proof.
  apply group_weeks_filter, sort_by_date_sorted.
Qed.

Lemma week_bins_chronological (data : list Row) :
  StronglySorted (fun a b => (date a <= date b)%Z) data ->
  Frames.week_bins date data = Frames.group_weeks date data.
Proof.
  intro Hs. unfold Frames.week_bins. now rewrite sort_by_date_chronological.
Qed.

End WeekBins.

(** ** Windows and weekly rows *)

Section Windows.

(** Whatever the order of the rows, the window is a tail of the frame that
    keeps its last row. *)
Lemma last_30D_tail (front : DataFrame) (last : PriceBar) :
  exists older kept,
    front = older ++ kept /\ last_30D (front ++ [last]) = kept ++ [last].
Proof.
  apply last_days_tail. lia.
Qed.

(** On a chronological frame the window holds the rows later than the last
    date minus thirty days. *)
Lemma last_30D_chronological (front : DataFrame) (last : PriceBar) :
  chronological (front ++ [last]) ->
  last_30D (front ++ [last])
  = filter (fun b => (Date last - 30 <? Date b)%Z) (front ++ [last]).
Proof.
  apply last_days_chronological.
Qed.


Lemma iloc_last_map {A B : Type} (f : A -> B) (l : list A) (x : A) :
  iloc_last l = Some x -> iloc_last (map f l) = Some (f x).
Proof.
  intro H. apply iloc_last_inv in H. destruct H as [front ->].
  rewrite map_app. apply iloc_last_app.
Qed.

(** A weekly row is the aggregate of its bin: open of the first day, highest
    high, lowest low, close of the last day, volume summed in int64. *)
Lemma agg_week_inv (g : list PriceBar) (w : PriceBar) :
  agg_week g = Some w ->
  exists first rest,
    g = first :: rest /\
    Date w = week_label (Date first) /\
    Open w = Open first /\
    Series_max (map High g) = Some (High w) /\
    Series_min (map Low g) = Some (Low w) /\
    iloc_last (map Close g) = Some (Close w) /\
    Volume w = int64_sum (map Volume g).
Proof.
  unfold agg_week. destruct g as [|first rest]; [discriminate|].
  destruct (iloc_last (first :: rest)) as [last|] eqn:El; [|discriminate].
  destruct (Series_max (map High (first :: rest))) as [hi|] eqn:Eh; [|discriminate].
  destruct (Series_min (map Low (first :: rest))) as [lo|] eqn:Elo; [|discriminate].
  intros [= <-]. exists first, rest. simpl.
  repeat split; try reflexivity.
  apply (iloc_last_map Close) in El. exact El.
Qed.

Lemma dropna_In (rows : list (option PriceBar)) (w : PriceBar) :
  In w (dropna rows) <-> In (Some w) rows.
Proof.
  induction rows as [|[r|] rows IH]; simpl.
  - tauto.
  - rewrite IH. split; intros [H|H]; auto; left; congruence.
  - rewrite IH. split; [auto|]. intros [H|H]; [discriminate|exact H].
Qed.

Lemma resample_W_In (data : DataFrame) (w : PriceBar) :
  In w (resample_W data) <->
  exists g, In g (Frames.week_bins Date data) /\ agg_week g = Some w.
Proof.
  unfold resample_W. rewrite dropna_In, in_map_iff.
  split; intros (g & H1 & H2); exists g; auto.
Qed.

(** The rows of a frame and of its bins are the same. *)
Lemma week_bins_In (data : DataFrame) (b : PriceBar) :
  In b data <-> exists g, In g (Frames.week_bins Date data) /\ In b g.
Proof.
  rewrite <- (sort_by_date_In Date data b).
  unfold Frames.week_bins.
  rewrite <- (group_weeks_concat Date (Frames.sort_by_date Date data)) at 1.
  rewrite in_concat. reflexivity.
Qed.

End Windows.

(** ** Weekly rows, bin by bin *)

Section Aggregates.

Lemma agg_week_defined (g : list PriceBar) : g <> [] -> exists w, agg_week g = Some w.
Proof.
  intro Hne. destruct g as [|first rest]; [congruence|].
  destruct (iloc_last_defined (first :: rest)) as [last Hlast]; [discriminate|].
  unfold agg_week. rewrite Hlast. cbn [map Series_max Series_min]. eauto.
Qed.

Lemma dropna_aggregates (bins : list (list PriceBar)) :
  Forall (fun g => g <> []) bins ->
  Forall2 (fun g w => agg_week g = Some w) bins (dropna (map agg_week bins)).
Proof.
  induction 1 as [|g bins Hg _ IH]; [constructor|].
  cbn [map]. destruct (agg_week_defined g Hg) as [w Hw]. rewrite Hw.
  cbn [dropna]. now constructor.
Qed.

(** Bin by bin, the weekly frame is the list of the aggregates. *)
Lemma resample_aggregates (data : DataFrame) :
  Forall2 (fun g w => agg_week g = Some w) (Frames.week_bins Date data) (resample_W data).
Proof.
  apply dropna_aggregates, group_weeks_nonempty.
Qed.

Lemma aggregates_cover (bins : list (list PriceBar)) (weeks : DataFrame) (g : list PriceBar) :
  Forall2 (fun g w => agg_week g = Some w) bins weeks ->
  In g bins -> exists w, In w weeks /\ agg_week g = Some w.
Proof.
  induction 1 as [|g0 w0 bins weeks Hagg _ IH]; intros Hin; [destruct Hin|].
  destruct Hin as [<-|Hin].
  - exists w0. split; [now left | exact Hagg].
  - destruct (IH Hin) as (w & Hw & Hg). exists w. split; [now right | exact Hg].
Qed.

Lemma aggregates_dates (bins : list (list PriceBar)) (weeks : DataFrame) :
  Forall2 (fun g w => agg_week g = Some w) bins weeks ->
  map Date weeks = map (Frames.bin_label Date) bins.
Proof.
  induction 1 as [|g w bins weeks Hagg _ IH]; [reflexivity|].
  cbn [map]. rewrite IH. f_equal.
  apply agg_week_inv in Hagg. destruct Hagg as (first & rest & -> & Hdate & _).
  exact Hdate.
Qed.

(** The weekly rows come in order of their labels, one per label. *)
Lemma resample_labels_sorted (data : DataFrame) :
  StronglySorted Z.lt (map Date (resample_W data)).
Proof.
  rewrite (aggregates_dates _ _ (resample_aggregates data)).
  apply group_labels_sorted, sort_by_date_sorted.
Qed.

(** Every daily row sits in a bin whose aggregate is a weekly row. *)
Lemma day_has_weekly_row (data : DataFrame) (b : PriceBar) :
  In b data ->
  exists g w,
    In g (Frames.week_bins Date data) /\ In b g /\
    In w (resample_W data) /\ agg_week g = Some w.
Proof.
  intro Hb. apply week_bins_In in Hb. destruct Hb as (g & Hg & Hbg).
  destruct (aggregates_cover _ _ g (resample_aggregates data) Hg) as (w & Hw & Hagg).
  exists g, w. auto.
Qed.

(** The bin behind a weekly row: the rows of the frame, sorted by date,
    that fall in the week of its label. *)
Lemma weekly_row_bin (data : DataFrame) (w : PriceBar) :
  In w (resample_W data) ->
  agg_week (filter (fun b => (week_label (Date b) =? Date w)%Z)
                   (Frames.sort_by_date Date data)) = Some w.
Proof.
  intro Hw. apply resample_W_In in Hw. destruct Hw as (g & Hg & Hagg).
  pose proof (week_bins_filter Date data g Hg) as Hfilter.
  destruct (agg_week_inv _ _ Hagg) as (first & rest & Hshape & Hdate & _).
  assert (Hlabel : Frames.bin_label Date g = Date w).
  { rewrite Hshape, Hdate. reflexivity. }
  rewrite Hlabel in Hfilter. now rewrite <- Hfilter.
Qed.

Lemma fold_left_add_from (l : list Z) (a : Z) :
  fold_left Z.add l a = (a + fold_right Z.add 0 l)%Z.
Proof.
  revert a. induction l as [|x l IH]; intro a; simpl; [lia|].
  rewrite IH. lia.
Qed.

Lemma int64_sum_volume (g : DataFrame) :
  int64_sum (map Volume g) = wrap_int64 (total_volume g).
Proof.
  unfold int64_sum, total_volume. now rewrite fold_left_add_from.
Qed.

(** A wrapped number is in the range of [int64] and differs from the
    number by a multiple of 2^64. *)
Lemma wrap_int64_spec (z : Z) :
  (- 9223372036854775808 <= wrap_int64 z < 9223372036854775808)%Z /\
  ((wrap_int64 z - z) mod 18446744073709551616 = 0)%Z.
Proof.
  unfold wrap_int64.
  pose proof (Z.mod_pos_bound (z + 9223372036854775808) 18446744073709551616 ltac:(lia)) as Hb.
  pose proof (Z.div_mod (z + 9223372036854775808) 18446744073709551616 ltac:(lia)) as Hdm.
  split; [lia|].
  replace ((z + 9223372036854775808) mod 18446744073709551616 - 9223372036854775808 - z)%Z
    with ((- ((z + 9223372036854775808) / 18446744073709551616)) * 18446744073709551616)%Z
    by lia.
  apply Z.mod_mul. lia.
Qed.

Lemma wrap_int64_small (z : Z) :
  (- 9223372036854775808 <= z < 9223372036854775808)%Z -> wrap_int64 z = z.
Proof.
  intro H. unfold wrap_int64. rewrite Z.mod_small by lia. lia.
Qed.

(** What a weekly row holds, in terms of the rows of its bin. *)
Lemma agg_week_row (g : list PriceBar) (w : PriceBar) :
  agg_week g = Some w ->
  exists first rest front last,
    g = first :: rest /\ g = front ++ [last] /\
    Date w = week_label (Date first) /\
    Open w = Open first /\ Close w = Close last /\
    (exists b, In b g /\ High b = High w) /\ (forall b, In b g -> High b <= High w) /\
    (exists b, In b g /\ Low b = Low w) /\ (forall b, In b g -> Low w <= Low b) /\
    Volume w = wrap_int64 (total_volume g).
Proof.
  intro Hagg.
  destruct (agg_week_inv _ _ Hagg) as (first & rest & Hshape & Hdate & Ho & Hh & Hl & Hc & Hv).
  destruct (iloc_last_defined g) as [last Hlast]; [rewrite Hshape; discriminate|].
  destruct (iloc_last_inv _ _ Hlast) as [front Hfront].
  rewrite (iloc_last_map Close _ _ Hlast) in Hc. injection Hc as Hc.
  destruct (column_max_spec High _ _ Hh) as [Hh1 Hh2].
  destruct (column_min_spec Low _ _ Hl) as [Hl1 Hl2].
  exists first, rest, front, last.
  split; [exact Hshape|]. split; [exact Hfront|]. split; [exact Hdate|].
  split; [exact Ho|]. split; [now symmetry|].
  split; [exact Hh1|]. split; [exact Hh2|]. split; [exact Hl1|]. split; [exact Hl2|].
  rewrite Hv. apply int64_sum_volume.
Qed.

End Aggregates.

(** ** C3, C4, C5: the three criteria *)

Section CriteriaClaims.


Lemma first_half_iff (current_price high low : Q) :
  check_first_half_criterion current_price high low = true <->
  low <= current_price /\ current_price <= (high + low) / 2.
Proof.
  unfold check_first_half_criterion.
  now rewrite andb_true_iff, !Qle_bool_iff.
Qed.






Lemma chronological_last (front : DataFrame) (last b : PriceBar) :
  chronological (front ++ [last]) -> In b (front ++ [last]) -> (Date b <= Date last)%Z.
Proof.
  unfold chronological. induction front as [|a front IH]; intros Hs Hb.
  - destruct Hb as [<-|[]]. lia.
  - cbn [app] in Hs. apply StronglySorted_inv in Hs. destruct Hs as [Hrest Ha].
    destruct Hb as [<-|Hb]; [|now apply IH].
    rewrite Forall_forall in Ha. apply Ha. apply in_or_app. right. now left.
Qed.




End CriteriaClaims.

Section WeeklyClaim.

Lemma weekly_iff (data earlier : DataFrame) (previous current : PriceBar) :
  resample_W data = earlier ++ [previous; current] ->
  (check_weekly_candle_criterion data = true <->
   Open current < Close current \/ High previous < High current).
Proof.
  intro Hweeks. unfold check_weekly_candle_criterion. rewrite Hweeks.
  assert (Hlen : (List.length (earlier ++ [previous; current]) <? 2)%nat = false).
  { apply Nat.ltb_ge. rewrite length_app. simpl. lia. }
  rewrite Hlen, rev_app_distr. cbn [rev app].
  now rewrite orb_true_iff, !Qltb_iff.
Qed.

(** C5, as stated, fails on the volume of a weekly bar: the [Volume]
    column is [int64] and its sum wraps.  A Monday and a Tuesday with a
    volume of 2^62 each, 2^63 together, give a weekly bar with a volume of
    -2^63. *)
Lemma weekly_volume_wraps :
  resample_W Cases.heavy_week =
    [ {| Date := 10; Open := 100; High := 130; Low := 90; Close := 120;
         Volume := -9223372036854775808 |} ] /\
  total_volume Cases.heavy_week = 9223372036854775808%Z.
Proof.
  split; reflexivity.
Qed.

(** C5 (amended): the daily rows are taken in order of date, rows of one
    date in the order they come in; weeks end on Sunday; there is one weekly
    bar for each calendar week that has rows, in order of the weeks, and it
    aggregates the rows of its week: open of the first, greatest high, least
    low, close of the last, and the sum of the volumes wrapped to 64-bit
    integers.  With fewer than two weekly bars the predicate is false, and
    otherwise it holds exactly when the latest weekly bar closes above its
    open or its high is strictly above the previous weekly bar's high. *)
Theorem weekly_candle_criterion_spec :
  forall (data : DataFrame),
    let days := Frames.sort_by_date Date data in
    let weekly := resample_W data in
    Permutation data days /\
    chronological days /\
    (forall d, filter (fun b => (Date b =? d)%Z) days
               = filter (fun b => (Date b =? d)%Z) data) /\
    (forall d, (week_label d mod 7 = 3)%Z /\ (d <= week_label d <= d + 6)%Z) /\
    StronglySorted Z.lt (map Date weekly) /\
    (forall b, In b data -> exists w, In w weekly /\ Date w = week_label (Date b)) /\
    (forall w, In w weekly ->
       let week := filter (fun b => (week_label (Date b) =? Date w)%Z) days in
       exists first rest front last,
         week = first :: rest /\ week = front ++ [last] /\
         Open w = Open first /\ Close w = Close last /\
         (exists b, In b week /\ High b = High w) /\
         (forall b, In b week -> High b <= High w) /\
         (exists b, In b week /\ Low b = Low w) /\
         (forall b, In b week -> Low w <= Low b) /\
         (- 9223372036854775808 <= Volume w < 9223372036854775808)%Z /\
         ((Volume w - total_volume week) mod 18446744073709551616 = 0)%Z) /\
    ((List.length weekly < 2)%nat -> check_weekly_candle_criterion data = false) /\
    (forall earlier previous current,
       weekly = earlier ++ [previous; current] ->
       (check_weekly_candle_criterion data = true <->
        Open current < Close current \/ High previous < High current)).
Proof.
  intros data days weekly.
  split; [apply sort_by_date_perm|].
  split; [apply sort_by_date_sorted|].
  split; [intro d; apply sort_by_date_stable|].
  split; [intro d; split; [apply week_label_sunday | apply week_label_bounds]|].
  split; [apply resample_labels_sorted|].
  split; [|split; [|split]].
  - intros b Hb.
    destruct (day_has_weekly_row data b Hb) as (g & w & Hg & Hbg & Hw & Hagg).
    exists w. split; [exact Hw|].
    destruct (agg_week_inv _ _ Hagg) as (first & rest & Hshape & Hdate & _).
    rewrite Hdate. apply week_label_eq.
    pose proof (group_weeks_same_week Date (Frames.sort_by_date Date data)) as Hweek.
    rewrite Forall_forall in Hweek.
    apply (Hweek g Hg); [rewrite Hshape; now left | exact Hbg].
  - intros w Hw week.
    pose proof (weekly_row_bin data w Hw) as Hagg. fold days in Hagg. fold week in Hagg.
    destruct (agg_week_row _ _ Hagg)
      as (first & rest & front & last & H1 & H2 & _ & H3 & H4 & H5 & H6 & H7 & H8 & H9).
    exists first, rest, front, last.
    destruct (wrap_int64_spec (total_volume week)) as [Hrange Hmod].
    rewrite <- H9 in Hrange, Hmod. auto 12.
  - intro Hlen. unfold check_weekly_candle_criterion. fold weekly.
    apply Nat.ltb_lt in Hlen. now rewrite Hlen.
  - intros earlier previous current. apply weekly_iff.
Qed.

(** C5 on the sample history: nine calendar weeks, the latest one green. *)
Lemma weekly_candle_criterion_sample :
  List.length (resample_W Samples.sample_history) = 9%nat /\
  check_weekly_candle_criterion Samples.sample_history = true.
Proof.
  split; [reflexivity|].
  destruct (weekly_candle_criterion_spec Samples.sample_history)
    as (_ & _ & _ & _ & _ & _ & _ & _ & H).
  apply (H (firstn 7 (resample_W Samples.sample_history))
           (nth 7 (resample_W Samples.sample_history) Samples.latest_bar)
           (nth 8 (resample_W Samples.sample_history) Samples.latest_bar)).
  - reflexivity.
  - left. reflexivity.
Defined.

End WeeklyClaim.

(** ** C2, C6, C7, C9: the screener *)

Section ScreenerClaims.

(** Everything an emitted result tells about the run that produced it. *)
Lemma screen_stock_accept_inv (yf : YFinance) (self : IndianStockStrategy.t)
      (ticker : string) (log : list Call) (r : ScreeningResult) :
  screen_stock yf self ticker = (log, Ret (Some r)) ->
  exists data price high low mid qty risk profit,
    Qltb (get_market_cap yf ticker) 1000 = false /\
    get_stock_data yf ticker = Some data /\
    (50 <= List.length data)%nat /\
    last_close data = Ret price /\
    calculate_52_week_range data = Some (high, low, mid) /\
    check_first_half_criterion price high low = true /\
    check_monthly_candle_criterion data price = true /\
    check_weekly_candle_criterion data = true /\
    calculate_position_size self price low high = Ret (qty, risk, profit) /\
    (0 < qty)%Z /\
    symbol r = ticker /\ current_price r = price /\ entry_price r = price /\
    stop_loss r = low /\ target_price r = high /\ quantity r = qty /\
    risk_amount r = risk /\ profit_potential r = profit /\
    market_cap r = get_market_cap yf ticker /\
    week_52_high r = high /\ week_52_low r = low /\
    position_value r = price * inject_Z qty /\
    criterion_1 r = true /\ criterion_2 r = true /\ criterion_3 r = true.
Proof.
  rewrite screen_stock_cases. cbv zeta.
  destruct (Qltb (get_market_cap yf ticker) 1000) eqn:Ecap; [discriminate|].
  destruct (get_stock_data yf ticker) as [data|]; [|discriminate].
  destruct (List.length data <? 50)%nat eqn:Elen; [discriminate|].
  destruct (last_close data) as [price|] eqn:Eprice; [|discriminate].
  destruct (calculate_52_week_range data) as [[[high low] mid]|] eqn:Erange;
    [|discriminate].
  destruct (check_first_half_criterion price high low) eqn:E1; [|discriminate].
  destruct (check_monthly_candle_criterion data price) eqn:E2; [|discriminate].
  destruct (check_weekly_candle_criterion data) eqn:E3; [|discriminate].
  cbn [andb negb].
  destruct (calculate_position_size self price low high)
    as [[[qty risk] profit]|] eqn:Esize; [|discriminate].
  destruct (qty <=? 0)%Z eqn:Eq; [discriminate|].
  intros [= _ <-]. cbn.
  apply Nat.ltb_ge in Elen. apply Z.leb_gt in Eq.
  exists data, price, high, low, mid, qty, risk, profit.
  repeat (split; [first [reflexivity | assumption]|]). reflexivity.
Qed.

(** C2, as stated, fails behind the market-cap guard: the sample history meets
    all three criteria and sizes to 8 shares, yet with a market cap below
    1000 no result is produced. *)
Lemma low_cap_rejected_despite_criteria :
  get_stock_data (Samples.provider None Samples.sample_history) "TCS.NS"
    = Some Samples.sample_history /\
  last_close Samples.sample_history = Ret 118 /\
  check_first_half_criterion 118 300 100 = true /\
  check_monthly_candle_criterion Samples.sample_history 118 = true /\
  check_weekly_candle_criterion Samples.sample_history = true /\
  calculate_position_size Samples.strategy 118 100 300 = Ret (8%Z, 144, 1456) /\
  screen_stock (Samples.provider None Samples.sample_history) Samples.strategy "TCS.NS"
    = ([call_get_market_cap "TCS.NS"], Ret None).
Proof.
  repeat split; vm_compute; reflexivity.
Qed.

(** C2 (amended): for every symbol whose market cap is at least 1000 and
    whose fetched series has at least 50 bars, a result is produced exactly
    when all three criteria are true and the sizer, called with the last
    close, the 52-week low and the 52-week high, returns a quantity > 0. *)
Theorem screening_result_iff :
  forall (yf : YFinance) (self : IndianStockStrategy.t) (ticker : string)
         (data : DataFrame),
    ~ get_market_cap yf ticker < 1000 ->
    get_stock_data yf ticker = Some data ->
    (50 <= List.length data)%nat ->
    exists price high52 low52 midpoint,
      last_close data = Ret price /\
      calculate_52_week_range data = Some (high52, low52, midpoint) /\
      ((exists r, snd (screen_stock yf self ticker) = Ret (Some r)) <->
       (check_first_half_criterion price high52 low52 = true /\
        check_monthly_candle_criterion data price = true /\
        check_weekly_candle_criterion data = true /\
        exists qty risk profit,
          calculate_position_size self price low52 high52 = Ret (qty, risk, profit) /\
          (0 < qty)%Z)).
Proof.
  intros yf self ticker data Hcap Hdata Hlen.
  assert (Hne : data <> []) by (destruct data; [simpl in Hlen; lia | discriminate]).
  destruct (last_close_defined data Hne) as [price Hprice].
  destruct (range_defined data Hne) as (high & low & mid & Hrange).
  exists price, high, low, mid. split; [exact Hprice|]. split; [exact Hrange|].
  assert (Ecap : Qltb (get_market_cap yf ticker) 1000 = false).
  { destruct (Qltb _ 1000) eqn:E; [|reflexivity]. apply Qltb_iff in E. contradiction. }
  assert (Elen : (List.length data <? 50)%nat = false) by now apply Nat.ltb_ge.
  split.
  - intros [r Hr].
    destruct (screen_stock yf self ticker) as [log o] eqn:Erun.
    simpl in Hr. subst o.
    apply screen_stock_accept_inv in Erun.
    destruct Erun as (data' & price' & high' & low' & mid' & qty & risk & profit
                      & _ & Hd & _ & Hp & Hr & H1 & H2 & H3 & Hsize & Hq & _).
    rewrite Hdata in Hd. injection Hd as <-.
    rewrite Hprice in Hp. injection Hp as <-.
    rewrite Hrange in Hr. injection Hr as <- <- <-.
    repeat (split; [assumption|]). eauto.
  - intros (H1 & H2 & H3 & qty & risk & profit & Hsize & Hq).
    rewrite screen_stock_cases. cbv zeta.
    rewrite Ecap, Hdata, Elen, Hprice, Hrange, H1, H2, H3, Hsize.
    cbn [andb negb].
    assert (Eq : (qty <=? 0)%Z = false) by now apply Z.leb_gt.
    rewrite Eq. simpl. eauto.
Qed.

(** C2 on the sample history, market cap 8300 crores: a result is
    produced. *)
Lemma screening_result_sample :
  exists r,
    snd (screen_stock (Samples.provider (Some 1000000000) Samples.sample_history)
                      Samples.strategy "TCS.NS") = Ret (Some r).
Proof.
  destruct (screening_result_iff
              (Samples.provider (Some 1000000000) Samples.sample_history)
              Samples.strategy "TCS.NS" Samples.sample_history)
    as (price & high & low & mid & Hprice & Hrange & Hiff).
  - intro H. vm_compute in H. discriminate H.
  - reflexivity.
  - vm_compute. lia.
  - vm_compute in Hprice. injection Hprice as <-.
    vm_compute in Hrange. injection Hrange as <- <- <-.
    apply Hiff. split; [vm_compute; reflexivity|].
    split; [vm_compute; reflexivity|]. split; [vm_compute; reflexivity|].
    exists 8%Z, 144, 1456. split; vm_compute; reflexivity.
Defined.

(** C6: a symbol whose market cap is below 1000, or whose fetched series has
    fewer than 50 bars, is rejected, and the run has by then called nothing
    but the two fetches: no range, no criterion, no sizing. *)
Theorem guards_reject_before_criteria :
  forall (yf : YFinance) (self : IndianStockStrategy.t) (ticker : string),
    (get_market_cap yf ticker < 1000 \/
     exists data, get_stock_data yf ticker = Some data /\ (List.length data < 50)%nat) ->
    screen_stock yf self ticker = ([call_get_market_cap ticker], Ret None) \/
    screen_stock yf self ticker
      = ([call_get_market_cap ticker; call_get_stock_data ticker], Ret None).
Proof.
  intros yf self ticker Hguard.
  rewrite screen_stock_cases. cbv zeta.
  destruct (Qltb (get_market_cap yf ticker) 1000) eqn:Ecap; [now left|].
  right. destruct Hguard as [Hcap|(data & Hdata & Hlen)].
  - apply Qltb_iff in Hcap. congruence.
  - rewrite Hdata. apply Nat.ltb_lt in Hlen. now rewrite Hlen.
Qed.

(** C6 on a ten-day history with a market cap of 8300 crores. *)
Lemma guards_reject_short_history :
  screen_stock (Samples.provider (Some 1000000000) Samples.short_history)
               Samples.strategy "TCS.NS"
    = ([call_get_market_cap "TCS.NS"; call_get_stock_data "TCS.NS"], Ret None).
Proof.
  destruct (guards_reject_before_criteria
              (Samples.provider (Some 1000000000) Samples.short_history)
              Samples.strategy "TCS.NS") as [H|H].
  - right. exists Samples.short_history. split; [reflexivity | vm_compute; lia].
  - vm_compute in H. discriminate H.
  - exact H.
Defined.

End ScreenerClaims.

Section ResultClaims.

(** C7: in an emitted result the stop is the 52-week low (the least Low of
    the series), the target is the 52-week high (the greatest High), the
    entry is the current price, which is the close of the last bar; and
    these three are what the sizer was called with. *)
Theorem result_sizing_inputs :
  forall (yf : YFinance) (self : IndianStockStrategy.t) (ticker : string)
         (log : list Call) (r : ScreeningResult),
    screen_stock yf self ticker = (log, Ret (Some r)) ->
    exists data,
      get_stock_data yf ticker = Some data /\
      Series_min (map Low data) = Some (stop_loss r) /\
      (exists b, In b data /\ Low b = stop_loss r) /\
      (forall b, In b data -> stop_loss r <= Low b) /\
      Series_max (map High data) = Some (target_price r) /\
      (exists b, In b data /\ High b = target_price r) /\
      (forall b, In b data -> High b <= target_price r) /\
      (exists front last, data = front ++ [last] /\ Close last = current_price r) /\
      entry_price r = current_price r /\
      calculate_position_size self (entry_price r) (stop_loss r) (target_price r)
        = Ret (quantity r, risk_amount r, profit_potential r).
Proof.
  intros yf self ticker log r Hrun.
  apply screen_stock_accept_inv in Hrun.
  destruct Hrun as (data & price & high & low & mid & qty & risk & profit
                    & _ & Hdata & _ & Hprice & Hrange & _ & _ & _ & Hsize & _
                    & _ & -> & -> & -> & -> & -> & -> & -> & _).
  destruct (range_inv _ _ _ _ Hrange) as (Hmax & Hmin & _).
  destruct (Series_max_spec _ _ Hmax) as [Hmax_in Hmax_ub].
  destruct (Series_min_spec _ _ Hmin) as [Hmin_in Hmin_lb].
  exists data. split; [exact Hdata|]. split; [exact Hmin|]. split.
  { apply in_map_iff in Hmin_in. destruct Hmin_in as (b & Hb & Hin). eauto. }
  split.
  { intros b Hb. apply Hmin_lb. now apply in_map. }
  split; [exact Hmax|]. split.
  { apply in_map_iff in Hmax_in. destruct Hmax_in as (b & Hb & Hin). eauto. }
  split.
  { intros b Hb. apply Hmax_ub. now apply in_map. }
  split.
  { apply last_close_inv in Hprice. destruct Hprice as (front & b & -> & Hb). eauto. }
  split; [reflexivity | exact Hsize].
Qed.

(** C7 on the sample history: stop 100, target 300, entry 118. *)
Lemma result_sizing_inputs_sample :
  exists r,
    snd (screen_stock (Samples.provider (Some 1000000000) Samples.sample_history)
                      Samples.strategy "TCS.NS") = Ret (Some r) /\
    stop_loss r = 100 /\ target_price r = 300 /\ entry_price r = 118 /\
    exists data,
      Series_min (map Low data) = Some (stop_loss r) /\
      Series_max (map High data) = Some (target_price r).
Proof.
  destruct (screen_stock (Samples.provider (Some 1000000000) Samples.sample_history)
                         Samples.strategy "TCS.NS") as [log [[r|]|]] eqn:Erun;
    try (vm_compute in Erun; discriminate Erun).
  exists r. split; [reflexivity|].
  destruct (result_sizing_inputs _ _ _ _ _ Erun)
    as (data & _ & Hmin & _ & _ & Hmax & _).
  vm_compute in Erun. injection Erun as _ <-.
  repeat (split; [reflexivity|]).
  exists data. split; assumption.
Defined.

(** C9: the run of [screen_stock] on a symbol depends on the provider only
    through that symbol's market cap and price history, and on the strategy
    only through its two caps: equal inputs give the same calls, the same
    decision and, on acceptance, the same result field for field. *)
Theorem screen_stock_deterministic :
  forall (yf1 yf2 : YFinance) (self1 self2 : IndianStockStrategy.t) (ticker : string),
    get_market_cap yf1 ticker = get_market_cap yf2 ticker ->
    get_stock_data yf1 ticker = get_stock_data yf2 ticker ->
    max_risk_amount self1 = max_risk_amount self2 ->
    max_position_amount self1 = max_position_amount self2 ->
    screen_stock yf1 self1 ticker = screen_stock yf2 self2 ticker.
Proof.
  intros yf1 yf2 self1 self2 ticker Hcap Hdata Hrisk Hpos.
  rewrite !screen_stock_cases. cbv zeta.
  rewrite Hcap, Hdata.
  destruct (Qltb (get_market_cap yf2 ticker) 1000); [reflexivity|].
  destruct (get_stock_data yf2 ticker) as [data|]; [|reflexivity].
  destruct (List.length data <? 50)%nat; [reflexivity|].
  destruct (last_close data) as [price|]; [|reflexivity].
  destruct (calculate_52_week_range data) as [[[high low] mid]|]; [|reflexivity].
  assert (Hsize : calculate_position_size self1 price low high
                  = calculate_position_size self2 price low high).
  { unfold calculate_position_size. now rewrite Hrisk, Hpos. }
  now rewrite Hsize.
Qed.

(** C9 on two providers that differ in what they say about constituents,
    and two strategies that differ in their universe. *)
Lemma screen_stock_deterministic_sample :
  screen_stock (Samples.provider (Some 1000000000) Samples.sample_history)
               Samples.strategy "TCS.NS"
  = screen_stock {| info_marketCap := fun _ => Some 1000000000;
                    history := fun _ _ => Some Samples.sample_history;
                    constituents := fun _ => Some ["TCS"%string] |}
                 (__init__ (Samples.live_provider ["TCS"%string]) 10000 "^BSESN")
                 "TCS.NS".
Proof.
  apply screen_stock_deterministic; reflexivity.
Defined.

End ResultClaims.

(** ** C10: the capital limits of a result, on doubles *)

Section Binary64Screener.

#[local] Set Warnings "-inexact-float".

(** The run of [screen_stock] on doubles, case by case. *)
Lemma binary64_screen_stock_cases (yf : Binary64.YFinance) (self : Binary64.t)
      (ticker : string) :
  Binary64.screen_stock yf self ticker =
    let market_cap := Binary64.get_market_cap yf ticker in
    if (market_cap <? 1000)%float then Ret None else
    match Binary64.get_stock_data yf ticker with
    | None => Ret None
    | Some data =>
      if (List.length data <? 50)%nat then Ret None else
      match Binary64.last_close data with
      | Raise e => Raise e
      | Ret current_price =>
        let week_52_high := Binary64.Series_max (map Binary64.High data) in
        let week_52_low := Binary64.Series_min (map Binary64.Low data) in
        let criterion_1 :=
          Binary64.check_first_half_criterion current_price week_52_high week_52_low in
        let criterion_2 := Binary64.check_monthly_candle_criterion data current_price in
        let criterion_3 := Binary64.check_weekly_candle_criterion data in
        if negb (criterion_1 && criterion_2 && criterion_3) then Ret None else
        match Binary64.calculate_position_size self current_price week_52_low week_52_high with
        | Raise e => Raise e
        | Ret (quantity, risk_amount, profit_potential) =>
          if (quantity <=? 0)%Z then Ret None else
          Ret (Some
            {| Binary64.symbol := ticker;
               Binary64.current_price := current_price;
               Binary64.entry_price := current_price;
               Binary64.stop_loss := week_52_low;
               Binary64.target_price := week_52_high;
               Binary64.quantity := quantity;
               Binary64.risk_amount := risk_amount;
               Binary64.profit_potential := profit_potential;
               Binary64.risk_reward_ratio :=
                 if (0 <? risk_amount)%float
                 then (profit_potential / risk_amount)%float else 0%float;
               Binary64.market_cap := market_cap;
               Binary64.week_52_high := week_52_high;
               Binary64.week_52_low := week_52_low;
               Binary64.position_value := (current_price * Binary64.of_int quantity)%float;
               Binary64.criterion_1 := criterion_1;
               Binary64.criterion_2 := criterion_2;
               Binary64.criterion_3 := criterion_3 |})
        end
      end
    end.
Proof.
  unfold Binary64.screen_stock, Binary64.calculate_52_week_range. cbv zeta.
  destruct (Binary64.get_market_cap yf ticker <? 1000)%float; [reflexivity|].
  destruct (Binary64.get_stock_data yf ticker) as [data|]; [|reflexivity].
  destruct (List.length data <? 50)%nat; [reflexivity|].
  destruct (Binary64.last_close data) as [current_price|e]; [|reflexivity].
  cbn [Py.bind].
  destruct (negb _); [reflexivity|].
  destruct (Binary64.calculate_position_size self current_price _ _)
    as [[[quantity risk] profit]|e]; [|reflexivity].
  cbn [Py.bind].
  destruct (quantity <=? 0)%Z; reflexivity.
Qed.






End Binary64Screener.

(** ** C8: the universe provider *)

Section UniverseClaim.

Lemma fallback_default : dict_get fallback_lists "^NSEI" [] = NIFTY_50_stocks.
Proof.
  reflexivity.
Qed.

(** The documented index codes are exactly the keys of the curated lists. *)
Lemma fallback_keys :
  forall index,
    In index (map fst fallback_lists) <-> In index (map fst index_names).
Proof.
  intro index. simpl. tauto.
Qed.

(** C8: an index identifier that is none of the five supported ones is not
    refused: the fallback lookup answers with the curated NIFTY-50 list, and
    so does the universe provider whenever the live lookup yields no
    constituents; the strategy is then initialised with that list. *)
Theorem unknown_index_falls_back :
  forall (yf : YFinance) (portfolio_capital : Q) (index : string),
    ~ In index ["^NSEI"; "^CRSLDX"; "^BSESN"; "^CNX100"; "NIFTY_MIDCAP"]%string ->
    _get_fallback_stocks index = NIFTY_50_stocks /\
    _get_fallback_stocks index = _get_fallback_stocks "^NSEI" /\
    (constituents yf index = None \/ constituents yf index = Some [] ->
     _get_nifty_symbols yf index = NIFTY_50_stocks /\
     indian_stocks (__init__ yf portfolio_capital index) = NIFTY_50_stocks).
Proof.
  intros yf portfolio_capital index Hunknown.
  assert (Hneq : forall key,
             In key ["^NSEI"; "^CRSLDX"; "^BSESN"; "^CNX100"; "NIFTY_MIDCAP"]%string ->
             String.eqb key index = false).
  { intros key Hkey. apply String.eqb_neq. intros ->. contradiction. }
  assert (Hfallback : _get_fallback_stocks index = NIFTY_50_stocks).
  { unfold _get_fallback_stocks. rewrite fallback_default.
    unfold fallback_lists. cbn [dict_get].
    rewrite !Hneq by (simpl; tauto). reflexivity. }
  split; [exact Hfallback|]. split.
  { rewrite Hfallback. unfold _get_fallback_stocks. now rewrite fallback_default. }
  intros Hlive.
  assert (Hsymbols : _get_nifty_symbols yf index = NIFTY_50_stocks).
  { unfold _get_nifty_symbols. destruct Hlive as [-> | ->]; exact Hfallback. }
  split; [exact Hsymbols|]. exact Hsymbols.
Qed.

(** C8 on an identifier the script does not know. *)
Lemma unknown_index_sample :
  _get_fallback_stocks "NIFTY_SMALLCAP" = NIFTY_50_stocks /\
  indian_stocks (__init__ (Samples.provider None []) 10000 "NIFTY_SMALLCAP")
    = NIFTY_50_stocks /\
  List.length NIFTY_50_stocks = 50%nat.
Proof.
  destruct (unknown_index_falls_back (Samples.provider None []) 10000 "NIFTY_SMALLCAP")
    as (Hfallback & _ & Hlive).
  - simpl. intros [H|[H|[H|[H|[H|[]]]]]]; discriminate H.
  - split; [exact Hfallback|]. split; [|reflexivity].
    apply Hlive. left. reflexivity.
Defined.

End UniverseClaim.

(** * Further properties of the code *)

(** ** The position sizer: errors, shape of the result, monotonicity *)

Section Binary64SizerErrors.

#[local] Set Warnings "-inexact-float".



(** The sizer raises nothing but the two errors of [int()]. *)
Lemma binary64_size_raises_kind (self : Binary64.t) (entry stop target : float) (e : exn) :
  Binary64.calculate_position_size self entry stop target = Raise e ->
  e = OverflowError \/ e = ValueError.
Proof.
  rewrite binary64_size_cases.
  destruct (entry - stop <=? 0)%float; [discriminate|].
  destruct ((target - entry) / (entry - stop) <=? 1)%float; [discriminate|].
  destruct (Binary64.value (Binary64.max_risk_amount self / (entry - stop)));
    [|intros [= <-]; auto|intros [= <-]; auto].
  destruct (Binary64.value (Binary64.max_position_amount self / entry));
    [|intros [= <-]; auto|intros [= <-]; auto].
  cbv zeta. destruct (Z.min _ _ <=? 0)%Z; discriminate.
Qed.



End Binary64SizerErrors.

Section SizerBehaviour.



End SizerBehaviour.

Section SizerMonotone.






End SizerMonotone.

(** ** The screener: what is fetched, what is called, when it raises *)

Section ScreenerBehaviour.

Lemma market_cap_passes_iff (yf : YFinance) (ticker : string) :
  Qltb (get_market_cap yf ticker) 1000 = false <->
  exists usd, info_marketCap yf ticker = Some usd /\ 10000000000 <= usd * 83.
Proof.
  rewrite Qltb_false_iff. unfold get_market_cap.
  destruct (info_marketCap yf ticker) as [usd|].
  - split.
    + intro H. exists usd. split; [reflexivity|].
      assert (E : usd * 83 / 10000000 * 10000000 == usd * 83) by (field; discriminate).
      lra.
    + intros (usd' & [= <-] & H).
      apply Qle_shift_div_l; [reflexivity | lra].
  - split.
    + intro H. exfalso. revert H. apply Qlt_not_le. reflexivity.
    + intros (usd & Hsome & _). discriminate.
Qed.

Lemma long_frame_nonempty (data : DataFrame) :
  (List.length data <? 50)%nat = false -> data <> [].
Proof.
  intros H ->. discriminate H.
Qed.

(** The log of every run, by the point the run stopped at. *)
Lemma screen_stock_log (yf : YFinance) (self : IndianStockStrategy.t) (ticker : string) :
  let run := screen_stock yf self ticker in
  (Qltb (get_market_cap yf ticker) 1000 = true /\
   run = (firstn 1 (complete_run ticker), Ret None)) \/
  (Qltb (get_market_cap yf ticker) 1000 = false /\
   (exists n, (2 <= n <= 7)%nat /\ fst run = firstn n (complete_run ticker)) /\
   ((exists e, snd run = Raise e) \/ (exists r, snd run = Ret (Some r)) ->
    fst run = complete_run ticker)).
Proof.
  cbv zeta. rewrite screen_stock_cases. cbv zeta.
  destruct (Qltb (get_market_cap yf ticker) 1000); [left; auto|].
  right. split; [reflexivity|].
  destruct (get_stock_data yf ticker) as [data|].
  2:{ split; [exists 2%nat; split; [lia|reflexivity]|].
      intros [[e H]|[r H]]; discriminate H. }
  destruct (List.length data <? 50)%nat eqn:Elen.
  { split; [exists 2%nat; split; [lia|reflexivity]|].
    intros [[e H]|[r H]]; discriminate H. }
  destruct (last_close_defined data (long_frame_nonempty data Elen)) as [price ->].
  destruct (range_defined data (long_frame_nonempty data Elen))
    as (high & low & mid & ->).
  destruct (negb _).
  { split; [exists 6%nat; split; [lia|reflexivity]|].
    intros [[e H]|[r H]]; discriminate H. }
  destruct (calculate_position_size self price low high) as [[[qty risk] profit]|e].
  - destruct (qty <=? 0)%Z; (split; [exists 7%nat; split; [lia|reflexivity]|]);
      intros _; reflexivity.
  - split; [exists 7%nat; split; [lia|reflexivity]|]. intros _. reflexivity.
Qed.

(** X5. The price history is fetched exactly for the symbols whose market cap
    lookup succeeds with 83 times the USD figure at least 10^10 (1000
    crores). *)
Theorem history_fetched_iff_market_cap :
  forall (yf : YFinance) (self : IndianStockStrategy.t) (ticker : string),
    In (call_get_stock_data ticker) (fst (screen_stock yf self ticker)) <->
    exists usd, info_marketCap yf ticker = Some usd /\ 10000000000 <= usd * 83.
Proof.
  intros yf self ticker. rewrite <- market_cap_passes_iff.
  destruct (screen_stock_log yf self ticker) as [[Hcap Hrun]|(Hcap & (n & Hn & Hlog) & _)].
  - rewrite Hrun, Hcap. simpl. split; [|discriminate].
    intros [H|[]]. discriminate H.
  - rewrite Hlog, Hcap. split; [reflexivity|]. intros _.
    destruct n as [|[|n]]; [lia|lia|]. simpl. right. now left.
Qed.

(** X6. The calls of a run are an initial part of the complete sequence, which
    starts with the market cap; a run that is accepted or that raises made
    all seven calls. *)
Theorem screen_stock_call_order :
  forall (yf : YFinance) (self : IndianStockStrategy.t) (ticker : string),
    (exists n, (1 <= n <= 7)%nat /\
               fst (screen_stock yf self ticker) = firstn n (complete_run ticker)) /\
    ((exists e, snd (screen_stock yf self ticker) = Raise e) \/
     (exists r, snd (screen_stock yf self ticker) = Ret (Some r)) ->
     fst (screen_stock yf self ticker) = complete_run ticker).
Proof.
  intros yf self ticker.
  destruct (screen_stock_log yf self ticker) as [[_ Hrun]|(_ & (n & Hn & Hlog) & Hfull)].
  - rewrite Hrun. split.
    + exists 1%nat. split; [lia|reflexivity].
    + intros [[e H]|[r H]]; discriminate H.
  - split; [|exact Hfull]. exists n. split; [lia|exact Hlog].
Qed.

End ScreenerBehaviour.

Section Binary64ScreenerErrors.

#[local] Set Warnings "-inexact-float".

Lemma binary64_last_close_defined (data : Binary64.DataFrame) :
  data <> [] -> exists current_price, Binary64.last_close data = Ret current_price.
Proof.
  intro H. unfold Binary64.last_close.
  destruct (iloc_last_defined (map Binary64.Close data)) as [c ->]; [|eauto].
  destruct data; [congruence|discriminate].
Qed.

(** X7. When the screener raises, on doubles.  An exception escapes
    [screen_stock] exactly when the symbol is past both guards, all three
    criteria hold and the sizer, called with the last close, the 52-week
    low and the 52-week high, raises; it is then the sizer's
    [OverflowError] or [ValueError].  An [IndexError] never escapes: past
    the guards the history has a last close. *)
Theorem screen_stock_raises_iff :
  forall (yf : Binary64.YFinance) (self : Binary64.t) (ticker : string) (e : exn),
    (Binary64.screen_stock yf self ticker = Raise e <->
     (Binary64.get_market_cap yf ticker <? 1000)%float = false /\
     exists data close,
       Binary64.get_stock_data yf ticker = Some data /\
       (50 <= List.length data)%nat /\
       Binary64.last_close data = Ret close /\
       let high := Binary64.Series_max (map Binary64.High data) in
       let low := Binary64.Series_min (map Binary64.Low data) in
       Binary64.check_first_half_criterion close high low = true /\
       Binary64.check_monthly_candle_criterion data close = true /\
       Binary64.check_weekly_candle_criterion data = true /\
       Binary64.calculate_position_size self close low high = Raise e) /\
    (Binary64.screen_stock yf self ticker = Raise e ->
     e = OverflowError \/ e = ValueError).
Proof.
  intros yf self ticker e.
  assert (Hiff :
    Binary64.screen_stock yf self ticker = Raise e <->
    (Binary64.get_market_cap yf ticker <? 1000)%float = false /\
    exists data close,
      Binary64.get_stock_data yf ticker = Some data /\
      (50 <= List.length data)%nat /\
      Binary64.last_close data = Ret close /\
      let high := Binary64.Series_max (map Binary64.High data) in
      let low := Binary64.Series_min (map Binary64.Low data) in
      Binary64.check_first_half_criterion close high low = true /\
      Binary64.check_monthly_candle_criterion data close = true /\
      Binary64.check_weekly_candle_criterion data = true /\
      Binary64.calculate_position_size self close low high = Raise e).
  { rewrite binary64_screen_stock_cases. cbv zeta.
    destruct (Binary64.get_market_cap yf ticker <? 1000)%float.
    { split; [discriminate|]. intros (H & _). discriminate H. }
    destruct (Binary64.get_stock_data yf ticker) as [data|].
    2:{ split; [discriminate|]. intros (_ & d & c & H & _). discriminate H. }
    destruct (List.length data <? 50)%nat eqn:Elen.
    { split; [discriminate|].
      intros (_ & d & c & [= <-] & Hlen & _). apply Nat.ltb_lt in Elen. lia. }
    apply Nat.ltb_ge in Elen.
    destruct (binary64_last_close_defined data) as [price Hprice].
    { intros ->. cbn in Elen. lia. }
    rewrite Hprice.
    destruct (Binary64.check_first_half_criterion price _ _) eqn:E1;
      [destruct (Binary64.check_monthly_candle_criterion data price) eqn:E2;
       [destruct (Binary64.check_weekly_candle_criterion data) eqn:E3|]|];
      cbn [andb negb].
    2,3,4: split; [discriminate|];
      intros (_ & d & c & [= <-] & _ & Hc & H1 & H2 & H3 & _);
      rewrite Hprice in Hc; injection Hc as <-; congruence.
    destruct (Binary64.calculate_position_size self price _ _)
      as [[[qty risk] profit]|e'] eqn:Hsize.
    - split.
      + destruct (qty <=? 0)%Z; discriminate.
      + intros (_ & d & c & [= <-] & _ & Hc & _ & _ & _ & Hraise).
        rewrite Hprice in Hc. injection Hc as <-.
        rewrite Hsize in Hraise. discriminate Hraise.
    - split.
      + intros [= ->]. split; [reflexivity|].
        exists data, price. auto 10.
      + intros (_ & d & c & [= <-] & _ & Hc & _ & _ & _ & Hraise).
        rewrite Hprice in Hc. injection Hc as <-.
        rewrite Hsize in Hraise. injection Hraise as ->. reflexivity. }
  split; [exact Hiff|].
  intro Hrun. apply Hiff in Hrun.
  destruct Hrun as (_ & data & close & _ & _ & _ & _ & _ & _ & Hraise).
  exact (binary64_size_raises_kind _ _ _ _ _ Hraise).
Qed.

(** X7, on a sample. A history that closes at zero above a negative low
    makes the screener raise: [OverflowError] with a capital of 10000,
    [ValueError] with a capital of zero. *)
Lemma screen_stock_raises_sample :
  Binary64.screen_stock
    (Binary64.Samples.provider (Some 1000000000%float) Binary64.Samples.zero_close_history)
    Binary64.Samples.sizing_config "TCS.NS" = Raise OverflowError /\
  Binary64.screen_stock
    (Binary64.Samples.provider (Some 1000000000%float) Binary64.Samples.zero_close_history)
    Binary64.Samples.empty_config "TCS.NS" = Raise ValueError.
Proof.
  split.
  - apply (proj2 (proj1 (screen_stock_raises_iff
             (Binary64.Samples.provider (Some 1000000000%float)
                Binary64.Samples.zero_close_history)
             Binary64.Samples.sizing_config "TCS.NS" OverflowError))).
    split; [vm_compute; reflexivity|].
    exists Binary64.Samples.zero_close_history, 0%float.
    split; [reflexivity|]. split; [vm_compute; lia|].
    cbv zeta. repeat (split; [vm_compute; reflexivity|]). vm_compute. reflexivity.
  - apply (proj2 (proj1 (screen_stock_raises_iff
             (Binary64.Samples.provider (Some 1000000000%float)
                Binary64.Samples.zero_close_history)
             Binary64.Samples.empty_config "TCS.NS" ValueError))).
    split; [vm_compute; reflexivity|].
    exists Binary64.Samples.zero_close_history, 0%float.
    split; [reflexivity|]. split; [vm_compute; lia|].
    cbv zeta. repeat (split; [vm_compute; reflexivity|]). vm_compute. reflexivity.
Defined.

End Binary64ScreenerErrors.

(** ** Emitted results: the geometry of the trade and the reported ratio *)

Section ResultBehaviour.





End ResultBehaviour.

(** ** The criteria at the price the screener uses: the last close *)

Section CriteriaAtLastClose.


(** X11. At the close of a last bar that closes at or above its low, the lower
    bound of the first-half test always holds: the criterion is just
    "close <= midpoint". *)
Theorem first_half_at_last_close :
  forall (front : DataFrame) (last : PriceBar) (high52 low52 midpoint : Q),
    Low last <= Close last ->
    calculate_52_week_range (front ++ [last]) = Some (high52, low52, midpoint) ->
    low52 <= Close last /\
    (check_first_half_criterion (Close last) high52 low52 = true <->
     Close last <= midpoint).
Proof.
  intros front last high52 low52 midpoint Hbar Hrange.
  destruct (range_inv _ _ _ _ Hrange) as (_ & Hmin & ->).
  apply Series_min_spec in Hmin. destruct Hmin as [_ Hlb].
  assert (Hlow : low52 <= Close last).
  { apply Qle_trans with (Low last); [|exact Hbar].
    apply Hlb. apply in_map. apply in_or_app. right. now left. }
  split; [exact Hlow|].
  rewrite first_half_iff. tauto.
Qed.

(** X11, on a sample. On the sample history: close 118 against the midpoint 200. *)
Lemma first_half_at_last_close_sample :
  check_first_half_criterion 118 300 100 = true <-> 118 <= (300 + 100) / 2.
Proof.
  apply (first_half_at_last_close (map Samples.old_bar (seq 0 49)) Samples.latest_bar
                                  300 100 ((300 + 100) / 2)).
  - discriminate.
  - reflexivity.
Defined.



End CriteriaAtLastClose.

(** ** The thirty-day window *)

Section Window.

Lemma filter_idempotent {A : Type} (f : A -> bool) (l : list A) :
  filter f (filter f l) = filter f l.
Proof.
  induction l as [|a l IH]; [reflexivity|].
  simpl. destruct (f a) eqn:E; [|exact IH]. simpl. now rewrite E, IH.
Qed.

(** In a chronological frame the rows later than a date are a tail of the
    frame. *)
Lemma later_rows_are_a_tail (start : Z) (data : DataFrame) :
  chronological data ->
  exists older,
    data = older ++ filter (fun r => (start <? Date r)%Z) data /\
    Forall (fun r => (Date r <= start)%Z) older.
Proof.
  induction data as [|b rest IH]; intro Hsorted.
  - exists []. split; [reflexivity|constructor].
  - apply StronglySorted_inv in Hsorted. destruct Hsorted as [Hrest Hb].
    cbn [filter]. destruct (start <? Date b)%Z eqn:E.
    + exists []. split; [|constructor]. cbn [app]. f_equal.
      symmetry. apply forallb_filter_id. apply forallb_forall.
      intros r Hr. apply Z.ltb_lt. apply Z.ltb_lt in E.
      rewrite Forall_forall in Hb. specialize (Hb r Hr). lia.
    + destruct (IH Hrest) as (older & Hsplit & Hold).
      exists (b :: older). split.
      * cbn [app]. f_equal. exact Hsplit.
      * constructor; [apply Z.ltb_ge in E; exact E | exact Hold].
Qed.

Lemma chronological_suffix (older rest : DataFrame) :
  chronological (older ++ rest) -> chronological rest.
Proof.
  unfold chronological. induction older as [|a older IH]; intro Hs; [exact Hs|].
  cbn [app] in Hs. apply StronglySorted_inv in Hs. now apply IH.
Qed.

(** X13. The window of [last('30D')].  Whatever the order of the rows, it is
    a tail of the frame and keeps the last row.  In a chronological frame
    the rows before it are dated thirty days or more before the last row,
    its own rows are dated within the thirty days that end at the last row,
    and taking the window twice changes nothing. *)
Theorem last_30D_window :
  forall (data : DataFrame) (last : PriceBar),
    iloc_last data = Some last ->
    exists older,
      data = older ++ last_30D data /\
      iloc_last (last_30D data) = Some last /\
      (chronological data ->
       Forall (fun r => (Date r <= Date last - 30)%Z) older /\
       Forall (fun r => (Date last - 30 < Date r <= Date last)%Z) (last_30D data) /\
       last_30D (last_30D data) = last_30D data).
Proof.
  intros data last Hlast.
  apply iloc_last_inv in Hlast. destruct Hlast as [front ->].
  destruct (last_30D_tail front last) as (older & kept & Hfront & Hwindow).
  exists older.
  assert (Hsplit : front ++ [last] = older ++ last_30D (front ++ [last])).
  { rewrite Hwindow, Hfront. now rewrite app_assoc. }
  split; [exact Hsplit|]. split; [rewrite Hwindow; apply iloc_last_app|].
  intro Hsorted.
  pose proof (last_30D_chronological front last Hsorted) as Hfilter.
  destruct (later_rows_are_a_tail (Date last - 30) _ Hsorted) as (older' & Hsplit' & Hold).
  rewrite <- Hfilter in Hsplit'.
  assert (Holder : older = older').
  { apply (app_inv_tail (last_30D (front ++ [last]))). congruence. }
  subst older'. split; [exact Hold|]. split.
  - apply Forall_forall. intros r Hr. rewrite Hfilter in Hr. apply filter_In in Hr.
    destruct Hr as [Hin Hlt]. apply Z.ltb_lt in Hlt. split; [exact Hlt|].
    exact (chronological_last front last r Hsorted Hin).
  - assert (Hwsorted : chronological (kept ++ [last])).
    { rewrite <- Hwindow. apply (chronological_suffix older). now rewrite <- Hsplit. }
    rewrite Hwindow at 1. rewrite (last_30D_chronological kept last Hwsorted).
    rewrite <- Hwindow, Hfilter. apply filter_idempotent.
Qed.

(** X13, on a sample. On the sample history the window is the last day alone. *)
Lemma last_30D_window_sample :
  last_30D Samples.sample_history = [Samples.latest_bar] /\
  iloc_last (last_30D Samples.sample_history) = Some Samples.latest_bar.
Proof.
  destruct (last_30D_window Samples.sample_history Samples.latest_bar)
    as (older & _ & Hkeep & _); [reflexivity|].
  split; [reflexivity | exact Hkeep].
Defined.

End Window.

(** ** Weekly resampling *)

Section Resampling.

Lemma total_volume_app (d1 d2 : DataFrame) :
  total_volume (d1 ++ d2) = (total_volume d1 + total_volume d2)%Z.
Proof.
  unfold total_volume. induction d1 as [|b d1 IH]; simpl; [reflexivity|].
  rewrite IH. lia.
Qed.

Lemma total_volume_perm (d1 d2 : DataFrame) :
  Permutation d1 d2 -> total_volume d1 = total_volume d2.
Proof.
  unfold total_volume. induction 1; simpl; lia.
Qed.

Lemma total_volume_nonneg (d : DataFrame) :
  (forall b, In b d -> (0 <= Volume b)%Z) -> (0 <= total_volume d)%Z.
Proof.
  unfold total_volume. induction d as [|b d IH]; intro H; simpl; [lia|].
  pose proof (H b (or_introl eq_refl)).
  assert (0 <= fold_right Z.add 0 (map Volume d))%Z by (apply IH; intros x Hx; apply H; now right).
  lia.
Qed.

(** Week by week, the volumes agree up to multiples of 2^64. *)
Lemma aggregates_volume_mod (bins : list (list PriceBar)) (weeks : DataFrame) :
  Forall2 (fun g w => agg_week g = Some w) bins weeks ->
  (18446744073709551616 | total_volume weeks - total_volume (List.concat bins))%Z.
Proof.
  induction 1 as [|g w bins weeks Hagg _ IH]; [exists 0%Z; reflexivity|].
  cbn [List.concat]. rewrite total_volume_app.
  destruct (agg_week_row _ _ Hagg) as (_ & _ & _ & _ & _ & _ & _ & _ & _ & _ & _ & _ & _ & Hv).
  destruct (wrap_int64_spec (total_volume g)) as [_ Hmod].
  apply Z.mod_divide in Hmod; [|lia]. rewrite <- Hv in Hmod.
  unfold total_volume at 1. cbn [map fold_right]. fold (total_volume weeks).
  replace (Volume w + total_volume weeks - (total_volume g + total_volume (List.concat bins)))%Z
    with ((Volume w - total_volume g) + (total_volume weeks - total_volume (List.concat bins)))%Z
    by lia.
  now apply Z.divide_add_r.
Qed.

(** When no weekly total leaves the range of int64, the volumes agree. *)
Lemma aggregates_volume_exact (bins : list (list PriceBar)) (weeks : DataFrame) :
  Forall2 (fun g w => agg_week g = Some w) bins weeks ->
  (forall g, In g bins ->
             (- 9223372036854775808 <= total_volume g < 9223372036854775808)%Z) ->
  total_volume weeks = total_volume (List.concat bins).
Proof.
  induction 1 as [|g w bins weeks Hagg _ IH]; intro Hfit; [reflexivity|].
  cbn [List.concat]. rewrite total_volume_app, <- IH.
  2:{ intros g' Hg'. apply Hfit. now right. }
  destruct (agg_week_row _ _ Hagg) as (_ & _ & _ & _ & _ & _ & _ & _ & _ & _ & _ & _ & _ & Hv).
  rewrite wrap_int64_small in Hv by (apply Hfit; now left).
  unfold total_volume at 1. cbn [map fold_right]. fold (total_volume weeks). lia.
Qed.

Lemma bin_volume_bound (bins : list (list PriceBar)) (g : list PriceBar) :
  (forall b, In b (List.concat bins) -> (0 <= Volume b)%Z) ->
  In g bins ->
  (0 <= total_volume g <= total_volume (List.concat bins))%Z.
Proof.
  induction bins as [|g0 bins IH]; intros Hpos Hg; [destruct Hg|].
  cbn [List.concat] in *. rewrite total_volume_app.
  assert (H0 : (0 <= total_volume g0)%Z).
  { apply total_volume_nonneg. intros b Hb. apply Hpos. apply in_or_app. now left. }
  assert (H1 : (0 <= total_volume (List.concat bins))%Z).
  { apply total_volume_nonneg. intros b Hb. apply Hpos. apply in_or_app. now right. }
  destruct Hg as [<-|Hg]; [lia|].
  assert (0 <= total_volume g <= total_volume (List.concat bins))%Z.
  { apply IH; [|exact Hg]. intros b Hb. apply Hpos. apply in_or_app. now right. }
  lia.
Qed.

Lemma sorted_lt_NoDup (l : list Z) : StronglySorted Z.lt l -> NoDup l.
Proof.
  induction 1 as [|x l _ IH Hx]; constructor; [|exact IH].
  intro Hin. rewrite Forall_forall in Hx. specialize (Hx x Hin). lia.
Qed.

Lemma week_bins_concat (data : DataFrame) :
  List.concat (Frames.week_bins Date data) = Frames.sort_by_date Date data.
Proof.
  apply group_weeks_concat.
Qed.

(** The week of a weekly row is the week of every row of its bin. *)
Lemma bin_week (data : DataFrame) (g : list PriceBar) (w b : PriceBar) :
  In g (Frames.week_bins Date data) -> agg_week g = Some w -> In b g ->
  Date w = week_label (Date b).
Proof.
  intros Hg Hagg Hb.
  destruct (agg_week_inv _ _ Hagg) as (first & rest & Hshape & Hdate & _).
  rewrite Hdate. apply week_label_eq.
  pose proof (group_weeks_same_week Date (Frames.sort_by_date Date data)) as Hweek.
  rewrite Forall_forall in Hweek.
  apply (Hweek g Hg); [rewrite Hshape; now left | exact Hb].
Qed.

(** X14. Resampling gives one weekly row for each calendar week that has
    daily rows, never more rows than there are days, and it keeps the
    volume: up to multiples of 2^64 always, the sums being taken in int64,
    and exactly when no volume is negative and the total is below 2^63. *)
Theorem resample_conserves_volume :
  forall (data : DataFrame),
    NoDup (map Date (resample_W data)) /\
    (forall d, In d (map Date (resample_W data)) <->
               exists b, In b data /\ week_label (Date b) = d) /\
    (List.length (resample_W data) <= List.length data)%nat /\
    ((total_volume (resample_W data) - total_volume data)
       mod 18446744073709551616 = 0)%Z /\
    ((forall b, In b data -> (0 <= Volume b)%Z) ->
     (total_volume data < 9223372036854775808)%Z ->
     total_volume (resample_W data) = total_volume data).
Proof.
  intro data. pose proof (resample_aggregates data) as Hagg.
  pose proof (sort_by_date_perm Date data) as Hperm.
  split; [apply sorted_lt_NoDup, resample_labels_sorted|].
  split; [|split; [|split]].
  - intro d. rewrite in_map_iff. split.
    + intros (w & <- & Hw). apply resample_W_In in Hw.
      destruct Hw as (g & Hg & Hw).
      destruct (agg_week_inv _ _ Hw) as (first & rest & Hshape & _).
      exists first. split.
      * apply week_bins_In. exists g. split; [exact Hg|]. rewrite Hshape. now left.
      * symmetry. apply (bin_week data g w first Hg Hw). rewrite Hshape. now left.
    + intros (b & Hb & <-).
      destruct (day_has_weekly_row data b Hb) as (g & w & Hg & Hbg & Hw & Hgw).
      exists w. split; [exact (bin_week data g w b Hg Hgw Hbg) | exact Hw].
  - rewrite <- (Forall2_length Hagg). unfold Frames.week_bins.
    rewrite (Permutation_length Hperm). apply group_weeks_length.
  - apply Z.mod_divide; [lia|].
    rewrite (total_volume_perm _ _ Hperm), <- week_bins_concat.
    now apply aggregates_volume_mod.
  - intros Hpos Htotal.
    rewrite (total_volume_perm _ _ Hperm) in *. rewrite <- week_bins_concat in *.
    apply aggregates_volume_exact; [exact Hagg|].
    intros g Hg.
    assert (0 <= total_volume g <= total_volume (List.concat (Frames.week_bins Date data)))%Z.
    { apply bin_volume_bound; [|exact Hg].
      intros b Hb. apply Hpos. rewrite week_bins_concat in Hb.
      now apply (sort_by_date_In Date data b). }
    lia.
Qed.

(** X14, on a sample. The ten days of a short history fall in two weeks, and
    their volume of 10000 is kept. *)
Lemma resample_conserves_volume_sample :
  map Date (resample_W Samples.short_history) = [3; 10]%Z /\
  total_volume (resample_W Samples.short_history) = 10000%Z.
Proof.
  split; [reflexivity|].
  destruct (resample_conserves_volume Samples.short_history) as (_ & _ & _ & _ & Hexact).
  rewrite Hexact; [reflexivity| |reflexivity].
  intros b Hb. unfold Samples.short_history in Hb. apply in_map_iff in Hb.
  destruct Hb as (d & <- & _). cbn. lia.
Defined.

(** X15. Every daily row is covered by a weekly row that brackets it: the weekly
    row is labelled with the Sunday that ends the day's week, at most six
    days later, its low is at most the day's low and its high at least the
    day's high. *)
Theorem resample_brackets_days :
  forall (data : DataFrame) (b : PriceBar),
    In b data ->
    exists w,
      In w (resample_W data) /\
      Date w = week_label (Date b) /\
      (Date b <= Date w <= Date b + 6)%Z /\
      Low w <= Low b /\ High b <= High w.
Proof.
  intros data b Hb.
  destruct (day_has_weekly_row data b Hb) as (g & w & Hg & Hbg & Hw & Hagg).
  exists w. split; [exact Hw|].
  pose proof (bin_week data g w b Hg Hagg Hbg) as Hlabel.
  apply agg_week_inv in Hagg.
  destruct Hagg as (first & rest & -> & Hdate & _ & Hmax & Hmin & _).
  split; [exact Hlabel|]. split; [rewrite Hlabel; apply week_label_bounds|].
  split.
  - apply (proj2 (Series_min_spec _ _ Hmin)). now apply in_map.
  - apply (proj2 (Series_max_spec _ _ Hmax)). now apply in_map.
Qed.

(** X15, on a sample. The last day of the sample history, day 100, falls in the week that
    ends on day 101. *)
Lemma resample_brackets_days_sample :
  exists w,
    In w (resample_W Samples.sample_history) /\
    Date w = 101%Z /\ Low w <= 100 /\ 120 <= High w.
Proof.
  destruct (resample_brackets_days Samples.sample_history Samples.latest_bar)
    as (w & Hw & Hdate & _ & Hlow & Hhigh).
  - apply in_or_app. right. now left.
  - exists w. auto.
Defined.

End Resampling.

Section WeeklyOrder.

(** X16. A history that stays within one calendar week never passes the weekly
    criterion: there is at most one weekly bar. *)
Theorem weekly_needs_two_weeks :
  forall (data : DataFrame),
    (forall b b', In b data -> In b' data -> week_of (Date b) = week_of (Date b')) ->
    (List.length (resample_W data) <= 1)%nat /\
    check_weekly_candle_criterion data = false.
Proof.
  intros data Hweek.
  assert (Hlen : (List.length (resample_W data) <= 1)%nat).
  { rewrite <- (Forall2_length (resample_aggregates data)).
    apply group_weeks_one_week. intros b b' Hb Hb'.
    apply Hweek; now apply (sort_by_date_In Date data). }
  split; [exact Hlen|].
  unfold check_weekly_candle_criterion.
  assert (E : (List.length (resample_W data) <? 2)%nat = true) by (apply Nat.ltb_lt; lia).
  now rewrite E.
Qed.

(** X16, on a sample. Monday to Friday of one week, every day green. *)
Lemma weekly_needs_two_weeks_sample :
  (List.length (resample_W Cases.one_week_history) <= 1)%nat /\
  check_weekly_candle_criterion Cases.one_week_history = false.
Proof.
  apply weekly_needs_two_weeks.
  intros b b' Hb Hb'.
  simpl in Hb, Hb'.
  repeat (destruct Hb as [<-|Hb]); try destruct Hb;
    repeat (destruct Hb' as [<-|Hb']); try destruct Hb'; reflexivity.
Defined.

(** X17. In a chronological history the weekly rows are strictly chronological:
    their labels, the Sundays that end the weeks, strictly increase, so no
    calendar week appears twice. *)
Theorem resample_is_chronological :
  forall (data : DataFrame),
    chronological data ->
    StronglySorted Z.lt (map Date (resample_W data)).
Proof.
  intros data _. apply resample_labels_sorted.
Qed.

(** X17, on a sample. The two weeks of a short chronological history. *)
Lemma resample_is_chronological_sample :
  StronglySorted Z.lt (map Date (resample_W Samples.short_history)).
Proof.
  apply resample_is_chronological.
  unfold chronological. vm_compute.
  repeat (constructor; [|repeat (constructor; [discriminate|]); constructor]).
  constructor.
Defined.

Lemma aggregates_last (bins : list (list PriceBar)) (weeks : DataFrame)
      (g : list PriceBar) :
  Forall2 (fun g w => agg_week g = Some w) bins weeks ->
  iloc_last bins = Some g ->
  exists w, iloc_last weeks = Some w /\ agg_week g = Some w.
Proof.
  intros Hagg Hlast. apply iloc_last_inv in Hlast. destruct Hlast as [front ->].
  apply Forall2_app_inv_l in Hagg.
  destruct Hagg as (ws1 & ws2 & _ & Hlast & ->).
  inversion Hlast as [|? w ? ? Hg Hnil]; subst. inversion Hnil; subst.
  exists w. split; [apply iloc_last_app | exact Hg].
Qed.

Lemma concat_last (bins : list (list PriceBar)) (g : list PriceBar) (last : PriceBar) :
  iloc_last bins = Some g -> iloc_last g = Some last ->
  iloc_last (List.concat bins) = Some last.
Proof.
  intros Hbins Hg. apply iloc_last_inv in Hbins. destruct Hbins as [front ->].
  apply iloc_last_inv in Hg. destruct Hg as [gfront ->].
  rewrite concat_app. cbn [List.concat]. rewrite app_nil_r, app_assoc.
  apply iloc_last_app.
Qed.

(** X18. In a chronological history the "current week" of the weekly
    criterion is the calendar week of the last daily row, whether or not
    that week is over: the latest weekly row is labelled with that week's
    Sunday, closes at the last daily close and reaches at least the last
    daily high. *)
Theorem latest_week_is_week_of_last_day :
  forall (data : DataFrame) (last : PriceBar),
    chronological data ->
    iloc_last data = Some last ->
    exists w,
      iloc_last (resample_W data) = Some w /\
      Date w = week_label (Date last) /\
      Close w = Close last /\
      High last <= High w /\ Low w <= Low last.
Proof.
  intros data last Hsorted Hlast.
  pose proof (week_bins_concat data) as Hconcat.
  unfold chronological in Hsorted.
  rewrite (sort_by_date_chronological Date data Hsorted) in Hconcat.
  assert (Hbins : Frames.week_bins Date data <> []).
  { intro E. rewrite E in Hconcat. simpl in Hconcat. subst data. discriminate Hlast. }
  destruct (iloc_last_defined _ Hbins) as [g Hg].
  destruct (aggregates_last _ _ g (resample_aggregates data) Hg) as (w & Hw & Hagg).
  exists w. split; [exact Hw|].
  assert (Hin : In g (Frames.week_bins Date data)).
  { apply iloc_last_inv in Hg. destruct Hg as [front ->].
    apply in_or_app. right. now left. }
  pose proof (group_weeks_nonempty Date (Frames.sort_by_date Date data)) as Hne.
  rewrite Forall_forall in Hne.
  destruct (iloc_last_defined g (Hne g Hin)) as [glast Hglast].
  pose proof (concat_last _ _ _ Hg Hglast) as Hc.
  rewrite Hconcat, Hlast in Hc. injection Hc as <-.
  assert (Hlast_in : In last g).
  { apply iloc_last_inv in Hglast. destruct Hglast as [gfront ->].
    apply in_or_app. right. now left. }
  split; [exact (bin_week data g w last Hin Hagg Hlast_in)|].
  apply agg_week_inv in Hagg.
  destruct Hagg as (first & rest & -> & Hdate & _ & Hmax & Hmin & Hclose & _).
  split.
  - rewrite (iloc_last_map Close _ _ Hglast) in Hclose. now injection Hclose.
  - split.
    + apply (proj2 (Series_max_spec _ _ Hmax)). now apply in_map.
    + apply (proj2 (Series_min_spec _ _ Hmin)). now apply in_map.
Qed.

(** X18, on a sample. The sample history ends on day 100: the current week is the one that
    ends on day 101, a Sunday, and it closes at 118. *)
Lemma latest_week_sample :
  exists w,
    iloc_last (resample_W Samples.sample_history) = Some w /\
    Date w = 101%Z /\ Close w = 118.
Proof.
  destruct (latest_week_is_week_of_last_day Samples.sample_history Samples.latest_bar)
    as (w & Hw & Hdate & Hclose & _).
  - unfold chronological, Samples.sample_history. cbn [map seq app].
    repeat (constructor; [|repeat (constructor; [vm_compute; discriminate|]); constructor]).
    constructor.
  - reflexivity.
  - exists w. auto.
Defined.

End WeeklyOrder.

(** ** The universe of symbols *)

Section Universe.

Lemma string_length_append (s t : string) :
  String.length (s ++ t) = (String.length s + String.length t)%nat.
Proof.
  induction s as [|c s IH]; [reflexivity|]. simpl. now rewrite IH.
Qed.

Lemma substring_whole (t : string) : substring 0 (String.length t) t = t.
Proof.
  induction t as [|c t IH]; [reflexivity|]. simpl. now rewrite IH.
Qed.

Lemma substring_past_prefix (s t : string) (m : nat) :
  substring (String.length s) m (s ++ t) = substring 0 m t.
Proof.
  induction s as [|c s IH]; [reflexivity|]. simpl. exact IH.
Qed.

Lemma endswith_append (s t : string) : endswith (s ++ t) t = true.
Proof.
  unfold endswith. rewrite string_length_append.
  assert (E : (String.length t <=? String.length s + String.length t)%nat = true)
    by (apply Nat.leb_le; lia).
  rewrite E.
  replace (String.length s + String.length t - String.length t)%nat
    with (String.length s) by lia.
  rewrite substring_past_prefix, substring_whole. apply String.eqb_refl.
Qed.

Lemma dict_get_cases {V : Type} (d : list (string * V)) (key : string) (default : V) :
  dict_get d key default = default \/ In (dict_get d key default) (map snd d).
Proof.
  induction d as [|[k v] d IH]; [now left|].
  cbn [dict_get]. destruct (String.eqb k key).
  - right. now left.
  - destruct IH as [IH|IH]; [now left|]. right. now right.
Qed.

(** Every curated list is non-empty and holds NSE symbols only. *)
Lemma curated_lists_checked :
  forallb (fun l => negb (Nat.eqb (List.length l) 0) &&
                    forallb (fun s => endswith s ".NS") l)
          (map snd fallback_lists) = true.
Proof.
  vm_compute. reflexivity.
Qed.

Lemma fallback_is_curated (index : string) :
  In (_get_fallback_stocks index) (map snd fallback_lists).
Proof.
  unfold _get_fallback_stocks. rewrite fallback_default.
  destruct (dict_get_cases fallback_lists index NIFTY_50_stocks) as [->|H];
    [now left | exact H].
Qed.

Lemma universe_checked (yf : YFinance) (index : string) :
  _get_nifty_symbols yf index <> [] /\
  forall s, In s (_get_nifty_symbols yf index) -> endswith s ".NS" = true.
Proof.
  assert (Hfallback : _get_fallback_stocks index <> [] /\
                      forall s, In s (_get_fallback_stocks index) ->
                                endswith s ".NS" = true).
  { pose proof curated_lists_checked as Hall.
    rewrite forallb_forall in Hall.
    specialize (Hall _ (fallback_is_curated index)).
    apply andb_true_iff in Hall. destruct Hall as [Hlen Hns]. split.
    - intro E. rewrite E in Hlen. discriminate Hlen.
    - intros s Hs. rewrite forallb_forall in Hns. now apply Hns. }
  unfold _get_nifty_symbols.
  destruct (constituents yf index) as [cs|]; [|exact Hfallback].
  destruct (0 <? List.length cs)%nat eqn:Elen; [|exact Hfallback].
  split.
  - destruct cs; [discriminate Elen | discriminate].
  - intros s Hs. apply in_map_iff in Hs. destruct Hs as (c & <- & _).
    destruct (endswith c ".NS") eqn:E; cbn [negb]; [exact E | apply endswith_append].
Qed.

(** X20. Whatever the provider answers and whatever the index identifier, the
    universe the strategy is initialised with is never empty and every one
    of its symbols ends in ".NS". *)
Theorem universe_is_nse_symbols :
  forall (yf : YFinance) (portfolio_capital : Q) (index : string),
    indian_stocks (__init__ yf portfolio_capital index) = _get_nifty_symbols yf index /\
    _get_nifty_symbols yf index <> [] /\
    (forall s, In s (_get_nifty_symbols yf index) -> endswith s ".NS" = true).
Proof.
  intros yf portfolio_capital index. split; [reflexivity|].
  apply universe_checked.
Qed.

Lemma suffixing_fixes_nse (l : list string) :
  (forall s, In s l -> endswith s ".NS" = true) ->
  map (fun symbol => if negb (endswith symbol ".NS")
                     then (symbol ++ ".NS")%string else symbol) l = l.
Proof.
  induction l as [|c l IH]; intro H; [reflexivity|].
  cbn [map]. rewrite (H c (or_introl eq_refl)). cbn [negb].
  f_equal. apply IH. intros s Hs. apply H. now right.
Qed.

(** X21. The live path keeps the number and the order of the constituents,
    leaves a symbol that already ends in ".NS" as it is and appends ".NS" to
    any other; and what the provider returns is stable: offered again as
    live constituents, under any index, it comes back unchanged. *)
Theorem universe_is_stable :
  forall (yf : YFinance) (index : string),
    (forall cs, constituents yf index = Some cs -> cs <> [] ->
       List.length (_get_nifty_symbols yf index) = List.length cs /\
       forall n c, nth_error cs n = Some c ->
                   nth_error (_get_nifty_symbols yf index) n =
                   Some (if endswith c ".NS" then c else (c ++ ".NS")%string)) /\
    (forall yf' index',
       constituents yf' index' = Some (_get_nifty_symbols yf index) ->
       _get_nifty_symbols yf' index' = _get_nifty_symbols yf index).
Proof.
  intros yf index. split.
  - intros cs Hcs Hne. unfold _get_nifty_symbols. rewrite Hcs.
    assert (E : (0 <? List.length cs)%nat = true).
    { apply Nat.ltb_lt. destruct cs; [congruence | simpl; lia]. }
    rewrite E. split; [apply length_map|].
    intros n c Hn. rewrite nth_error_map, Hn. cbn [option_map].
    now destruct (endswith c ".NS").
  - intros yf' index' Hlive.
    destruct (universe_checked yf index) as [Hne Hns].
    unfold _get_nifty_symbols at 1. rewrite Hlive.
    assert (E : (0 <? List.length (_get_nifty_symbols yf index))%nat = true).
    { apply Nat.ltb_lt. destruct (_get_nifty_symbols yf index); [congruence | simpl; lia]. }
    rewrite E. now apply suffixing_fixes_nse.
Qed.

(** X21, on a sample. Three bare tickers come back in order with the suffix, and come back
    unchanged when offered again. *)
Lemma universe_is_stable_sample :
  _get_nifty_symbols (Samples.live_provider ["TCS"; "INFY.NS"; "SBIN"]%string) "^NSEI"
    = ["TCS.NS"; "INFY.NS"; "SBIN.NS"]%string /\
  _get_nifty_symbols (Samples.live_provider ["TCS.NS"; "INFY.NS"; "SBIN.NS"]%string)
                     "NIFTY_MIDCAP"%string
    = ["TCS.NS"; "INFY.NS"; "SBIN.NS"]%string.
Proof.
  split; [reflexivity|].
  apply (proj2 (universe_is_stable
                  (Samples.live_provider ["TCS"; "INFY.NS"; "SBIN"]%string) "^NSEI")
               (Samples.live_provider ["TCS.NS"; "INFY.NS"; "SBIN.NS"]%string)
               "NIFTY_MIDCAP"%string).
  reflexivity.
Defined.

End Universe.

(** ** The loop over the universe *)

Section Loop.

Variable yf : YFinance.
Variable self : IndianStockStrategy.t.

(** What one symbol adds to the list of qualified stocks. *)
Lemma screen_symbols_cons (s : string) (rest : list string) :
  screen_symbols yf self (s :: rest) =
    match screen_stock yf self s with
    | (log, Raise e) => (log, Raise e)
    | (log, Ret result) =>
        match screen_symbols yf self rest with
        | (log', Raise e) => (log ++ log', Raise e)
        | (log', Ret qualified) =>
            (log ++ log',
             Ret (match result with
                  | Some r => r :: qualified
                  | None => qualified
                  end))
        end
    end.
Proof.
  cbn [screen_symbols]. unfold run_bind, run_ret.
  destruct (screen_stock yf self s) as [log [result|e]]; [|reflexivity].
  destruct (screen_symbols yf self rest) as [log' [qualified|e]]; [|reflexivity].
  now rewrite app_nil_r.
Qed.

Lemma screen_symbols_returns (symbols : list string) :
  (forall s, In s symbols -> forall e, snd (screen_stock yf self s) <> Raise e) ->
  screen_symbols yf self symbols =
    (flat_map (fun s => fst (screen_stock yf self s)) symbols,
     Ret (flat_map (fun s => match snd (screen_stock yf self s) with
                             | Ret (Some r) => [r]
                             | _ => []
                             end) symbols)).
Proof.
  induction symbols as [|s rest IH]; intro Hsafe; [reflexivity|].
  rewrite screen_symbols_cons, IH by (intros t Ht; apply Hsafe; now right).
  pose proof (Hsafe s (or_introl eq_refl)) as Hs.
  cbn [flat_map].
  destruct (screen_stock yf self s) as [log [[r|]|e]]; cbn [fst snd] in *.
  - reflexivity.
  - reflexivity.
  - exfalso. now apply (Hs e).
Qed.

(** X22. When no symbol of the universe makes [screen_stock] raise,
    [screen_all_stocks] returns exactly the accepted results: a result is in
    the list if and only if it is the result of a symbol of the universe;
    the results come in the order of the universe, at most one per
    occurrence of a symbol; and the calls made are those of the symbols, one
    symbol after the other. *)
Theorem screen_all_stocks_collects :
  (forall s, In s (indian_stocks self) ->
             forall e, snd (screen_stock yf self s) <> Raise e) ->
  exists results,
    screen_all_stocks yf self
      = (flat_map (fun s => fst (screen_stock yf self s)) (indian_stocks self),
         Ret results) /\
    results = flat_map (fun s => match snd (screen_stock yf self s) with
                                 | Ret (Some r) => [r]
                                 | _ => []
                                 end) (indian_stocks self) /\
    (List.length results <= List.length (indian_stocks self))%nat /\
    (forall r, In r results <->
               exists s, In s (indian_stocks self) /\
                         snd (screen_stock yf self s) = Ret (Some r)) /\
    (forall r, In r results -> In (symbol r) (indian_stocks self)).
Proof.
  intro Hsafe. unfold screen_all_stocks.
  rewrite (screen_symbols_returns _ Hsafe).
  eexists. split; [reflexivity|]. split; [reflexivity|].
  assert (Hin : forall r,
             In r (flat_map (fun s => match snd (screen_stock yf self s) with
                                      | Ret (Some r) => [r]
                                      | _ => []
                                      end) (indian_stocks self)) <->
             exists s, In s (indian_stocks self) /\
                       snd (screen_stock yf self s) = Ret (Some r)).
  { intro r. rewrite in_flat_map. split.
    - intros (s & Hs & Hr). exists s. split; [exact Hs|].
      destruct (snd (screen_stock yf self s)) as [[r'|]|e]; try destruct Hr.
      + now subst.
      + destruct H.
    - intros (s & Hs & Hr). exists s. split; [exact Hs|]. rewrite Hr. now left. }
  split; [|split; [exact Hin|]].
  - clear. induction (indian_stocks self) as [|s rest IH]; [apply Nat.le_refl|].
    cbn [flat_map]. rewrite length_app. cbn [List.length].
    destruct (snd (screen_stock yf self s)) as [[r|]|e]; simpl; lia.
  - intros r Hr. apply Hin in Hr. destruct Hr as (s & Hs & Hr).
    destruct (screen_stock yf self s) as [log o] eqn:Erun. cbn [snd] in Hr. subst o.
    apply screen_stock_accept_inv in Erun.
    destruct Erun as (data & price & high & low & mid & qty & risk & profit
                      & _ & _ & _ & _ & _ & _ & _ & _ & _ & _ & -> & _).
    exact Hs.
Qed.

(** X23. The loop has no handler: as soon as one symbol makes [screen_stock]
    raise, [screen_all_stocks] raises the same exception.  The results found
    for the symbols before it are lost, and the symbols after it are never
    looked at. *)
Theorem screen_all_stocks_aborts :
  forall (before after : list string) (s : string) (e : exn),
    indian_stocks self = before ++ s :: after ->
    (forall t, In t before -> forall e', snd (screen_stock yf self t) <> Raise e') ->
    snd (screen_stock yf self s) = Raise e ->
    screen_all_stocks yf self
      = (flat_map (fun t => fst (screen_stock yf self t)) (before ++ [s]), Raise e).
Proof.
  intros before after s e Huniverse Hsafe Hraise.
  unfold screen_all_stocks. rewrite Huniverse. clear Huniverse.
  induction before as [|t before IH].
  - cbn [app flat_map]. rewrite screen_symbols_cons.
    destruct (screen_stock yf self s) as [log o]. cbn [snd fst] in *. subst o.
    now rewrite app_nil_r.
  - cbn [app flat_map]. rewrite screen_symbols_cons.
    rewrite IH by (intros u Hu; apply Hsafe; now right).
    pose proof (Hsafe t (or_introl eq_refl)) as Ht.
    destruct (screen_stock yf self t) as [log [result|e']]; cbn [fst snd] in *.
    + reflexivity.
    + exfalso. now apply (Ht e').
Qed.

End Loop.

Section LoopSamples.

(** X22, on a sample. A universe of three symbols that all qualify, the first one twice
    over: four results, in the order of the universe. *)
Lemma screen_all_stocks_collects_sample :
  exists results,
    snd (screen_all_stocks
           (Samples.provider (Some 1000000000) Samples.sample_history)
           (__init__ (Samples.live_provider ["TCS"; "INFY"; "TCS"; "SBIN"]%string)
                     10000 "^NSEI"))
      = Ret results /\
    map symbol results = ["TCS.NS"; "INFY.NS"; "TCS.NS"; "SBIN.NS"]%string.
Proof.
  destruct (screen_all_stocks_collects
              (Samples.provider (Some 1000000000) Samples.sample_history)
              (__init__ (Samples.live_provider ["TCS"; "INFY"; "TCS"; "SBIN"]%string)
                        10000 "^NSEI"))
    as (results & Hrun & Hresults & _).
  - intros s Hs e. vm_compute in Hs.
    repeat (destruct Hs as [<-|Hs]; [vm_compute; discriminate|]). destruct Hs.
  - exists results. rewrite Hrun. split; [reflexivity|].
    rewrite Hresults. vm_compute. reflexivity.
Defined.

(** X23, on a sample. A universe whose second symbol closes at zero: the first symbol
    qualifies, and the run as a whole raises. *)
Lemma screen_all_stocks_aborts_sample :
  (exists r, snd (screen_stock Cases.mixed_provider
                               (__init__ (Samples.live_provider ["TCS"; "BAD"; "INFY"]%string)
                                         10000 "^NSEI") "TCS.NS") = Ret (Some r)) /\
  snd (screen_all_stocks Cases.mixed_provider
         (__init__ (Samples.live_provider ["TCS"; "BAD"; "INFY"]%string) 10000 "^NSEI"))
    = Raise OverflowError.
Proof.
  split; [vm_compute; eauto|].
  rewrite (screen_all_stocks_aborts Cases.mixed_provider
             (__init__ (Samples.live_provider ["TCS"; "BAD"; "INFY"]%string) 10000 "^NSEI")
             ["TCS.NS"%string] ["INFY.NS"%string] "BAD.NS"%string OverflowError).
  - reflexivity.
  - reflexivity.
  - intros t [<-|[]] e'. vm_compute. discriminate.
  - vm_compute. reflexivity.
Defined.

End LoopSamples.

(** ** Provider failures, the range of the weekly frame, the binding cap *)

Section ProviderFailures.

(** X8. A lookup that fails is a rejection, never an error: when the market cap
    cannot be read the symbol is turned down after that one call and the
    history is not asked for; when the history cannot be read, or is empty,
    the symbol is turned down without any criterion being evaluated. *)
Theorem provider_failure_is_rejection :
  forall (yf : YFinance) (self : IndianStockStrategy.t) (ticker : string),
    (info_marketCap yf ticker = None ->
     screen_stock yf self ticker = ([call_get_market_cap ticker], Ret None)) /\
    (history yf ticker "1y" = None \/ history yf ticker "1y" = Some [] ->
     snd (screen_stock yf self ticker) = Ret None /\
     forall c, In c (fst (screen_stock yf self ticker)) ->
               c = call_get_market_cap ticker \/ c = call_get_stock_data ticker).
Proof.
  intros yf self ticker. rewrite screen_stock_cases. cbv zeta. split.
  - intro Hinfo. unfold get_market_cap. rewrite Hinfo. reflexivity.
  - intro Hhist. unfold get_stock_data.
    destruct (Qltb (get_market_cap yf ticker) 1000).
    + split; [reflexivity|]. intros c [<-|[]]. now left.
    + destruct Hhist as [-> | ->]; cbn [List.length Nat.ltb Nat.leb];
        (split; [reflexivity|]); intros c [<-|[<-|[]]]; auto.
Qed.

End ProviderFailures.

Section WeeklyRange.

(** X19. Resampling keeps the range: the highest weekly high, the lowest weekly
    low and their midpoint have the values of the 52-week high, low and
    midpoint of the daily history. *)
Theorem resample_preserves_range :
  forall (data : DataFrame) (high low mid : Q),
    calculate_52_week_range data = Some (high, low, mid) ->
    exists high' low' mid',
      calculate_52_week_range (resample_W data) = Some (high', low', mid') /\
      high' == high /\ low' == low /\ mid' == mid.
Proof.
  intros data high low mid Hrange.
  destruct (range_inv _ _ _ _ Hrange) as (Hmax & Hmin & ->).
  destruct (Series_max_spec _ _ Hmax) as [Hmax_in Hmax_ub].
  destruct (Series_min_spec _ _ Hmin) as [Hmin_in Hmin_lb].
  assert (Hcover : forall b, In b data ->
                             exists w, In w (resample_W data) /\
                                       Low w <= Low b /\ High b <= High w).
  { intros b Hb.
    destruct (day_has_weekly_row data b Hb) as (g & w & _ & Hbg & Hw & Hagg).
    exists w. split; [exact Hw|].
    apply agg_week_inv in Hagg. destruct Hagg as (first & rest & -> & _ & _ & Hh & Hl & _).
    split.
    - apply (proj2 (Series_min_spec _ _ Hl)). now apply in_map.
    - apply (proj2 (Series_max_spec _ _ Hh)). now apply in_map. }
  assert (Hweeks : resample_W data <> []).
  { destruct data as [|b rest]; [discriminate Hmax|].
    destruct (Hcover b (or_introl eq_refl)) as (w & Hw & _).
    intro E. rewrite E in Hw. exact Hw. }
  destruct (range_defined _ Hweeks) as (high' & low' & mid' & Hrange').
  exists high', low', mid'. split; [exact Hrange'|].
  destruct (range_inv _ _ _ _ Hrange') as (Hmax' & Hmin' & ->).
  destruct (Series_max_spec _ _ Hmax') as [Hmax_in' Hmax_ub'].
  destruct (Series_min_spec _ _ Hmin') as [Hmin_in' Hmin_lb'].
  assert (Hinside : forall w, In w (resample_W data) ->
                              (exists b, In b data /\ High b = High w) /\
                              (exists b, In b data /\ Low b = Low w)).
  { intros w Hw. apply resample_W_In in Hw. destruct Hw as (g & Hg & Hagg).
    apply agg_week_inv in Hagg.
    destruct Hagg as (first & rest & -> & _ & _ & Hh & Hl & _).
    assert (Hsub : forall b, In b (first :: rest) -> In b data).
    { intros b Hb. apply week_bins_In. eauto. }
    apply Series_max_spec in Hh. destruct Hh as [Hh _].
    apply Series_min_spec in Hl. destruct Hl as [Hl _].
    apply in_map_iff in Hh. destruct Hh as (bh & Ebh & Hbh).
    apply in_map_iff in Hl. destruct Hl as (bl & Ebl & Hbl).
    split; [exists bh | exists bl]; auto. }
  assert (Hhigh : high' == high).
  { apply Qle_antisym.
    - apply in_map_iff in Hmax_in'. destruct Hmax_in' as (w & <- & Hw).
      destruct (proj1 (Hinside w Hw)) as (b & Hb & <-).
      apply Hmax_ub. now apply in_map.
    - apply in_map_iff in Hmax_in. destruct Hmax_in as (b & <- & Hb).
      destruct (Hcover b Hb) as (w & Hw & _ & Hbw).
      apply Qle_trans with (High w); [exact Hbw|].
      apply Hmax_ub'. now apply in_map. }
  assert (Hlow : low' == low).
  { apply Qle_antisym.
    - apply in_map_iff in Hmin_in. destruct Hmin_in as (b & <- & Hb).
      destruct (Hcover b Hb) as (w & Hw & Hwb & _).
      apply Qle_trans with (Low w); [|exact Hwb].
      apply Hmin_lb'. now apply in_map.
    - apply in_map_iff in Hmin_in'. destruct Hmin_in' as (w & <- & Hw).
      destruct (proj2 (Hinside w Hw)) as (b & Hb & <-).
      apply Hmin_lb. now apply in_map. }
  split; [exact Hhigh|]. split; [exact Hlow|].
  now rewrite Hhigh, Hlow.
Qed.

(** X19, on a sample. The nine weekly bars of the sample history span 100 to 300, as its
    fifty days do. *)
Lemma resample_preserves_range_sample :
  exists high' low' mid',
    calculate_52_week_range (resample_W Samples.sample_history)
      = Some (high', low', mid') /\
    high' == 300 /\ low' == 100 /\ mid' == (300 + 100) / 2.
Proof.
  apply (resample_preserves_range Samples.sample_history 300 100 ((300 + 100) / 2)).
  reflexivity.
Defined.

End WeeklyRange.

